(** * The todo application: session tracking and task-list synchronisation

    A shallow embedding of [app/src/App.tsx] (the React component [App]) and
    of the SQL schema shipped with it (table [public.todos], its
    [set_updated_at] trigger and its row-level-security policies).

    - JavaScript strings are [string]s: a sequence of code units, here the
      code units below 256.
    - The component state is the record [State.t]; a handler is a program
      of type [Prog unit] built from the render whose closure it captured:
      it calls state setters ([SetState]), suspends on requests to the
      store ([Await], one per [await supabase.from('todos')...]) and may
      throw ([Raise]).
    - [run] executes a program against a store collaborator, one operation
      at a time (overlapping operations are not modelled).
    - [Pg] is the database behind the store collaborator, as the SQL
      defines it. *)

From stdpp Require Import base list strings sorting sets.
From Stdlib Require Import ZArith Ascii String Lia.

Local Open Scope string_scope.

(** ** JavaScript primitives used by the component *)

Module JS.

(** [WhiteSpace] and [LineTerminator] code units below 256: TAB, LF, VT,
    FF, CR, SP and NBSP. *)
Definition is_white_space (c : ascii) : bool :=
  let n := nat_of_ascii c in
  ((n =? 9) || (n =? 10) || (n =? 11) || (n =? 12) || (n =? 13)
   || (n =? 32) || (n =? 160))%nat.

Fixpoint trimStart (s : string) : string :=
  match s with
  | EmptyString => EmptyString
  | String c r => if is_white_space c then trimStart r else s
  end.

Definition trimEnd (s : string) : string :=
  String.rev (trimStart (String.rev s)).

(** [String.prototype.trim] *)
Definition trim (s : string) : string := trimEnd (trimStart s).

(** Truthiness of a string: every string but the empty one. *)
Definition truthy (s : string) : bool :=
  match s with EmptyString => false | String _ _ => true end.

(** Truthiness of a [string | null]. *)
Definition truthy_opt (o : option string) : bool :=
  match o with Some s => truthy s | None => false end.

(** [s.slice(0, n)] *)
Definition slice0 (n : nat) (s : string) : string := String.substring 0 n s.

(** *** [new Date(s).toISOString()] *)

Definition digit (c : ascii) : option nat :=
  let n := nat_of_ascii c in
  if ((48 <=? n) && (n <=? 57))%nat then Some (n - 48)%nat else None.

Fixpoint digits (acc : nat) (l : list ascii) : option nat :=
  match l with
  | [] => Some acc
  | c :: r =>
      match digit c with
      | Some d => digits (10 * acc + d) r
      | None => None
      end
  end.

Definition is_leap (y : nat) : bool :=
  ((y mod 4 =? 0) && negb (y mod 100 =? 0) || (y mod 400 =? 0))%nat.

Definition days_in_month (y m : nat) : nat :=
  match m with
  | 2 => if is_leap y then 29 else 28
  | 4 | 6 | 9 | 11 => 30
  | _ => 31
  end.

(** The date-only form [YYYY-MM-DD] of the Date Time String Format, with
    a month from 01 to 12 and a day that exists in that month.  It
    returns the year, the month and the day. *)
Definition parse_date_only (s : string) : option (nat * nat * nat) :=
  match list_ascii_of_string s with
  | [y1; y2; y3; y4; d1; m1; m2; d2; a1; a2] =>
      if (Ascii.eqb d1 "-" && Ascii.eqb d2 "-")%bool then
        match digits 0 [y1; y2; y3; y4], digits 0 [m1; m2], digits 0 [a1; a2] with
        | Some y, Some m, Some d =>
            if ((1 <=? m) && (m <=? 12) && (1 <=? d) && (d <=? days_in_month y m))%nat
            then Some (y, m, d) else None
        | _, _, _ => None
        end
      else None
  | _ => None
  end.

Definition is_date_only (s : string) : bool :=
  match parse_date_only s with Some _ => true | None => false end.

Section Date.
  (** What [new Date(s).toISOString()] evaluates to on a string that is
      not of the date-only form: the other forms of the format and the
      implementation-defined fallback are left to the engine.  [None]
      stands for the [RangeError] that [toISOString] throws on an
      invalid date. *)
Variable Date_other : string -> option string.

  (** A date-only string denotes midnight UTC of that day, and
      [toISOString] prints it back with the time of day appended. *)
Definition toISOString (s : string) : option string :=
    if is_date_only s then Some (s +:+ "T00:00:00.000Z") else Date_other s.
End Date.

End JS.

(** ** Data model *)

(** [type Todo] *)
Module Todo.
Record t : Type := mk {
  id : string;
  user_id : string;
  title : string;
  description : option string;
  completed : bool;
  due_date : option string;
  created_at : string;
  updated_at : string
}.

#[global] Instance eq_dec : EqDecision t.
Proof. solve_decision. Defined.
End Todo.

(** [type Filter = 'all' | 'active' | 'completed'] *)
Inductive Filter : Type := all | active | completed.

#[global] Instance Filter_eq_dec : EqDecision Filter.
Proof. solve_decision. Defined.

(** The [Session] of the auth client: an access token and the
    authenticated user.  [obj_ref] is the identity of the JavaScript
    object, which is what React compares in an effect's dependency list. *)
Module Session.
Record User : Type := mkUser { id : string }.
Record t : Type := mk {
  obj_ref : nat;
  access_token : string;
  user : User
}.

(** [Object.is] on two values of type [Session | null] *)
Definition Object_is (a b : option t) : bool :=
  match a, b with
  | None, None => true
  | Some x, Some y => (obj_ref x =? obj_ref y)%nat
  | _, _ => false
  end.
End Session.

(** The state of the component [App] that the task list uses (the fields
    of the login form are left out). *)
Module State.
Record t : Type := mk {
  session : option Session.t;
  loading : bool;
  todos : list Todo.t;
  error : option string;
  title : string;
  description : string;
  dueDate : string;
  editingId : option string;
  filter : Filter
}.

(** The [useState] initial values. *)
Definition init : t :=
  mk None true [] None EmptyString EmptyString EmptyString None all.

Definition set_session v (s : t) : t :=
  mk v (loading s) (todos s) (error s) (title s) (description s) (dueDate s) (editingId s) (filter s).
Definition set_loading v (s : t) : t :=
  mk (session s) v (todos s) (error s) (title s) (description s) (dueDate s) (editingId s) (filter s).
Definition set_todos v (s : t) : t :=
  mk (session s) (loading s) v (error s) (title s) (description s) (dueDate s) (editingId s) (filter s).
Definition set_error v (s : t) : t :=
  mk (session s) (loading s) (todos s) v (title s) (description s) (dueDate s) (editingId s) (filter s).
Definition set_title v (s : t) : t :=
  mk (session s) (loading s) (todos s) (error s) v (description s) (dueDate s) (editingId s) (filter s).
Definition set_description v (s : t) : t :=
  mk (session s) (loading s) (todos s) (error s) (title s) v (dueDate s) (editingId s) (filter s).
Definition set_dueDate v (s : t) : t :=
  mk (session s) (loading s) (todos s) (error s) (title s) (description s) v (editingId s) (filter s).
Definition set_editingId v (s : t) : t :=
  mk (session s) (loading s) (todos s) (error s) (title s) (description s) (dueDate s) v (filter s).
Definition set_filter v (s : t) : t :=
  mk (session s) (loading s) (todos s) (error s) (title s) (description s) (dueDate s) (editingId s) v.
End State.

(** ** Requests to the store collaborator *)

(** The object [payload] of [handleSubmitTodo]. *)
Module Payload.
Record t : Type := mk {
  title : string;
  description : option string;
  due_date : option string;
  user_id : string
}.
End Payload.

(** The two shapes of column assignments the component sends with
    [.update(...)]. *)
Inductive Patch : Type :=
| PatchForm (p : Payload.t)          (* update(payload) *)
| PatchCompleted (c : bool).         (* update({ completed: ... }) *)

(** The requests on [supabase.from('todos')]. *)
Inductive Request : Type :=
| SelectOrderByCreatedAt (ascending : bool)
  (* .select('*').order('created_at', { ascending }) *)
| Insert (p : Payload.t)             (* .insert(payload) *)
| Update (p : Patch) (id : string)   (* .update(p).eq('id', id) *)
| Delete (id : string).              (* .delete().eq('id', id) *)

(** The [{ data, error }] a request resolves to; [error] holds
    [error.message]. *)
Module Response.
Record t : Type := mk {
  data : option (list Todo.t);
  error : option string
}.
Definition ok (d : option (list Todo.t)) : t := mk d None.
Definition fail (msg : string) : t := mk None (Some msg).
End Response.

Definition is_select (r : Request) : bool :=
  match r with SelectOrderByCreatedAt _ => true | _ => false end.

(** ** Handler programs *)

Inductive Exn : Type :=
| RangeError (msg : string).

Inductive Prog (A : Type) : Type :=
| Ret (a : A)
| Raise (e : Exn)
| SetState (f : State.t -> State.t) (k : Prog A)
| Await (req : Request) (k : Response.t -> Prog A).

Arguments Ret {A} a.
Arguments Raise {A} e.
Arguments SetState {A} f k.
Arguments Await {A} req k.

Fixpoint bind {A B : Type} (p : Prog A) (f : A -> Prog B) : Prog B :=
  match p with
  | Ret a => f a
  | Raise e => Raise e
  | SetState g k => SetState g (bind k f)
  | Await req k => Await req (fun r => bind (k r) f)
  end.

#[global] Instance Prog_ret : MRet Prog := @Ret.
#[global] Instance Prog_bind : MBind Prog := fun A B f p => bind p f.

Definition set (f : State.t -> State.t) : Prog unit := SetState f (Ret tt).
Definition await (req : Request) : Prog Response.t := Await req Ret.
Definition throw {A : Type} (e : Exn) : Prog A := Raise e.

Definition setSession v := set (State.set_session v).
Definition setLoading v := set (State.set_loading v).
Definition setTodos v := set (State.set_todos v).
Definition setError v := set (State.set_error v).
Definition setTitle v := set (State.set_title v).
Definition setDescription v := set (State.set_description v).
Definition setDueDate v := set (State.set_dueDate v).
Definition setEditingId v := set (State.set_editingId v).
Definition setFilter v := set (State.set_filter v).

(** ** The component's handlers *)

Section Handlers.
Variable Date_other : string -> option string.

(** [filteredTodos]: the memoised view of [todos] under [filter]. *)
Definition filteredTodos (todos : list Todo.t) (filter : Filter) : list Todo.t :=
  match filter with
  | active => List.filter (fun t => negb (Todo.completed t)) todos
  | completed => List.filter (fun t => Todo.completed t) todos
  | all => todos
  end.

Definition fetchTodos : Prog unit :=
  setError None;;
  r ← await (SelectOrderByCreatedAt false);
  match Response.error r with
  | Some message => setError (Some message)
  | None => setTodos (default [] (Response.data r))
  end.

Definition resetForm : Prog unit :=
  setTitle EmptyString;;
  setDescription EmptyString;;
  setDueDate EmptyString;;
  setEditingId None.

(** [dueDate ? new Date(dueDate).toISOString() : null] *)
Definition due_date_of_draft (dueDate : string) : Prog (option string) :=
  if JS.truthy dueDate then
    match JS.toISOString Date_other dueDate with
    | Some iso => mret (Some iso)
    | None => throw (RangeError "Invalid time value")
    end
  else mret None.

(** [handleSubmitTodo], in the closure of the render [st]. *)
Definition handleSubmitTodo (st : State.t) : Prog unit :=
  match State.session st with
  | None => mret tt
  | Some session =>
      setError None;;
      due ← due_date_of_draft (State.dueDate st);
      let payload :=
        {| Payload.title := JS.trim (State.title st);
           Payload.description :=
             (let d := JS.trim (State.description st) in
              if JS.truthy d then Some d else None);
           Payload.due_date := due;
           Payload.user_id := Session.id (Session.user session) |} in
      if negb (JS.truthy (Payload.title payload)) then
        setError (Some "Title is required")
      else
        match State.editingId st with
        | Some editingId =>
            if JS.truthy editingId then
              r ← await (Update (PatchForm payload) editingId);
              match Response.error r with
              | Some message => setError (Some message)
              | None => resetForm;; fetchTodos
              end
            else
              r ← await (Insert payload);
              match Response.error r with
              | Some message => setError (Some message)
              | None => resetForm;; fetchTodos
              end
        | None =>
            r ← await (Insert payload);
            match Response.error r with
            | Some message => setError (Some message)
            | None => resetForm;; fetchTodos
            end
        end
  end.

Definition startEdit (todo : Todo.t) : Prog unit :=
  setEditingId (Some (Todo.id todo));;
  setTitle (Todo.title todo);;
  setDescription
    (match Todo.description todo with
     | Some d => if JS.truthy d then d else EmptyString
     | None => EmptyString
     end);;
  setDueDate
    (match Todo.due_date todo with
     | Some d => if JS.truthy d then JS.slice0 10 d else EmptyString
     | None => EmptyString
     end).

Definition toggleComplete (todo : Todo.t) : Prog unit :=
  r ← await (Update (PatchCompleted (negb (Todo.completed todo))) (Todo.id todo));
  match Response.error r with
  | Some message => setError (Some message)
  | None => fetchTodos
  end.

Definition deleteTodo (id : string) : Prog unit :=
  r ← await (Delete id);
  match Response.error r with
  | Some message => setError (Some message)
  | None => fetchTodos
  end.

(** The body of [useEffect(..., [session])], in the closure of a render
    whose session is [session]. *)
Definition sessionEffect (session : option Session.t) : Prog unit :=
  match session with
  | Some _ => fetchTodos
  | None => setTodos []
  end.

(** The effects that run after the render that follows a change of the
    tracked session from [before] to [after]: React runs the effect when
    the dependency differs under [Object.is]. *)
Definition afterRender (before after : option Session.t) : Prog unit :=
  if Session.Object_is before after then mret tt else sessionEffect after.

(** The [then] callback of [supabase.auth.getSession()]. *)
Definition onGetSession (st : State.t) (s : option Session.t) : Prog unit :=
  setSession s;;
  setLoading false;;
  afterRender (State.session st) s.

(** The callback registered with [supabase.auth.onAuthStateChange]. *)
Definition onAuthStateChange (st : State.t) (newSession : option Session.t) : Prog unit :=
  setSession newSession;;
  afterRender (State.session st) newSession.

(** *** Events and the view *)

Inductive Event : Type :=
| GetSessionResolved (s : option Session.t)
| AuthStateChange (s : option Session.t)
| SubmitTodo
| StartEdit (todo : Todo.t)
| ToggleComplete (todo : Todo.t)
| DeleteTodo (id : string)
| Cancel
| ChangeTitle (v : string)
| ChangeDescription (v : string)
| ChangeDueDate (v : string)
| ClickFilter (f : Filter).

Definition handle (ev : Event) (st : State.t) : Prog unit :=
  match ev with
  | GetSessionResolved s => onGetSession st s
  | AuthStateChange s => onAuthStateChange st s
  | SubmitTodo => handleSubmitTodo st
  | StartEdit todo => startEdit todo
  | ToggleComplete todo => toggleComplete todo
  | DeleteTodo id => deleteTodo id
  | Cancel => resetForm
  | ChangeTitle v => setTitle v
  | ChangeDescription v => setDescription v
  | ChangeDueDate v => setDueDate v
  | ClickFilter f => setFilter f
  end.

(** Which events the rendered view can deliver in state [st].  While
    [loading] only the placeholder is shown; without a session only the
    login card; with a session the todo form (whose title input is
    [required]), the filter buttons and, for each todo of the filtered
    list, its checkbox and its Edit and Delete buttons.  The auth client
    calls back at any time. *)
Definition offered (st : State.t) (ev : Event) : bool :=
  match ev with
  | GetSessionResolved _ | AuthStateChange _ => true
  | _ =>
      negb (State.loading st) &&
      match State.session st with
      | None => false
      | Some _ =>
          match ev with
          | SubmitTodo => JS.truthy (State.title st)
          | StartEdit todo | ToggleComplete todo =>
              bool_decide (todo ∈ filteredTodos (State.todos st) (State.filter st))
          | DeleteTodo id =>
              bool_decide (id ∈ Todo.id <$> filteredTodos (State.todos st) (State.filter st))
          | Cancel => JS.truthy_opt (State.editingId st)
          | _ => true
          end
      end
  end.

End Handlers.

(** ** Running a program against a store collaborator *)

Inductive Outcome (A : Type) : Type :=
| Done (a : A)
| Rejected (e : Exn).
Arguments Done {A} a.
Arguments Rejected {A} e.

Module Run.
Record t (S A : Type) : Type := mk {
  outcome : Outcome A;
  state : State.t;
  store : S;
  trace : list (Request * Response.t)
}.
Arguments mk {S A}.
Arguments outcome {S A}.
Arguments state {S A}.
Arguments store {S A}.
Arguments trace {S A}.
End Run.

Section Run.
Context {S : Type} (respond : S -> Request -> S * Response.t).

(** [run p st s] executes [p] from the component state [st] with the store
    in state [s]; the trace lists the requests sent and their responses,
    in order. *)
Fixpoint run {A : Type} (p : Prog A) (st : State.t) (s : S) : Run.t S A :=
  match p with
  | Ret a => Run.mk (Done a) st s []
  | Raise e => Run.mk (Rejected e) st s []
  | SetState f k => run k (f st) s
  | Await req k =>
      let sr := respond s req in
      let r := run (k (snd sr)) st (fst sr) in
      Run.mk (Run.outcome r) (Run.state r) (Run.store r) ((req, snd sr) :: Run.trace r)
  end.

End Run.

(** ** The database behind the store collaborator *)

(** A row of [public.todos]; a [timestamptz] is a number of microseconds
    since the Unix epoch, a [uuid] is kept as its text. *)
Module TodoRow.
Record t : Type := mk {
  id : string;
  user_id : string;
  title : string;
  description : option string;
  completed : bool;
  due_date : option Z;
  created_at : Z;
  updated_at : Z
}.

Definition set_completed (c : bool) (r : t) : t :=
  mk (id r) (user_id r) (title r) (description r) c (due_date r) (created_at r) (updated_at r).

Definition set_updated_at (now : Z) (r : t) : t :=
  mk (id r) (user_id r) (title r) (description r) (completed r) (due_date r) (created_at r) now.
End TodoRow.

(** [order by created_at desc] and [order by created_at asc] *)
Definition created_desc : relation TodoRow.t :=
  fun a b => (TodoRow.created_at b <= TodoRow.created_at a)%Z.
Definition created_asc : relation TodoRow.t :=
  fun a b => (TodoRow.created_at a <= TodoRow.created_at b)%Z.

#[global] Instance created_desc_dec : RelDecision created_desc.
Proof. intros a b. unfold created_desc. apply _. Defined.
#[global] Instance created_asc_dec : RelDecision created_asc.
Proof. intros a b. unfold created_asc. apply _. Defined.

Module Pg.

(** The table, the identity [auth.uid()] that the client's requests carry
    ([None] for an anonymous request) and the number of statements run so
    far. *)
Record t : Type := mk {
  rows : list TodoRow.t;
  uid : option string;
  stmt : nat
}.

Section Pg.
(** The JSON text of a [timestamptz], the reading of a [timestamptz] from
    text ([None] when the text is not a timestamp), the value of [now()]
    in the n-th statement and the value that [gen_random_uuid()] draws in
    it. *)
Variable timestamptz_out : Z -> string.
Variable timestamptz_in : string -> option Z.
Variable clock : nat -> Z.
Variable gen_random_uuid : nat -> string.

Definition now (db : t) : Z := clock (stmt db).

(** A selected row as the client receives it. *)
Definition to_todo (r : TodoRow.t) : Todo.t :=
  {| Todo.id := TodoRow.id r;
     Todo.user_id := TodoRow.user_id r;
     Todo.title := TodoRow.title r;
     Todo.description := TodoRow.description r;
     Todo.completed := TodoRow.completed r;
     Todo.due_date := timestamptz_out <$> TodoRow.due_date r;
     Todo.created_at := timestamptz_out (TodoRow.created_at r);
     Todo.updated_at := timestamptz_out (TodoRow.updated_at r) |}.

(** The predicate of the four policies: [auth.uid() = user_id]. *)
Definition policy (db : t) (r : TodoRow.t) : bool :=
  match uid db with
  | Some u => String.eqb u (TodoRow.user_id r)
  | None => false
  end.

(** The trigger function [public.set_updated_at]. *)
Definition set_updated_at (db : t) (new : TodoRow.t) : TodoRow.t :=
  TodoRow.set_updated_at (now db) new.

Definition rls_violation : string :=
  "new row violates row-level security policy for table todos".
Definition bad_timestamp : string :=
  "invalid input syntax for type timestamp with time zone".
Definition duplicate_key : string :=
  "duplicate key value violates unique constraint todos_pkey".

Definition read_due_date (d : option string) : string + option Z :=
  match d with
  | None => inr None
  | Some s =>
      match timestamptz_in s with
      | Some z => inr (Some z)
      | None => inl bad_timestamp
      end
  end.

(** The assignments of an [update], read from the request body. *)
Definition decode (p : Patch) : string + (TodoRow.t -> TodoRow.t) :=
  match p with
  | PatchCompleted c => inr (TodoRow.set_completed c)
  | PatchForm f =>
      match read_due_date (Payload.due_date f) with
      | inl e => inl e
      | inr due =>
          inr (fun r =>
                 TodoRow.mk (TodoRow.id r) (Payload.user_id f) (Payload.title f)
                   (Payload.description f) (TodoRow.completed r) due
                   (TodoRow.created_at r) (TodoRow.updated_at r))
      end
  end.

(** [update ... where id = ...]: the rows that the policy's [using] lets
    the caller see and whose id matches are assigned, pass through the
    [before update] trigger and must satisfy the policy's [with check]. *)
Fixpoint update_rows (db : t) (f : TodoRow.t -> TodoRow.t) (id : string)
    (rs : list TodoRow.t) : string + list TodoRow.t :=
  match rs with
  | [] => inr []
  | r :: rest =>
      if policy db r && String.eqb (TodoRow.id r) id then
        let new := set_updated_at db (f r) in
        if policy db new then
          match update_rows db f id rest with
          | inl e => inl e
          | inr rest' => inr (new :: rest')
          end
        else inl rls_violation
      else
        match update_rows db f id rest with
        | inl e => inl e
        | inr rest' => inr (r :: rest')
        end
  end.

(** What [update({ completed: c }).eq('id', id)] makes of one row. *)
Definition toggled (db : t) (c : bool) (id : string) (r : TodoRow.t) : TodoRow.t :=
  if policy db r && String.eqb (TodoRow.id r) id
  then set_updated_at db (TodoRow.set_completed c r)
  else r.

Definition select (db : t) (ascending : bool) : list TodoRow.t :=
  let visible := List.filter (policy db) (rows db) in
  if ascending then merge_sort created_asc visible
  else merge_sort created_desc visible.

Definition insert_row (db : t) (p : Payload.t) : string + TodoRow.t :=
  match read_due_date (Payload.due_date p) with
  | inl e => inl e
  | inr due =>
      let new :=
        TodoRow.mk (gen_random_uuid (stmt db)) (Payload.user_id p) (Payload.title p)
          (Payload.description p) false due (now db) (now db) in
      if negb (policy db new) then inl rls_violation
      else if bool_decide (TodoRow.id new ∈ TodoRow.id <$> rows db) then inl duplicate_key
      else inr new
  end.

Definition delete_rows (db : t) (id : string) : list TodoRow.t :=
  List.filter (fun r => negb (policy db r && String.eqb (TodoRow.id r) id)) (rows db).

Definition next (db : t) (rs : list TodoRow.t) : t :=
  mk rs (uid db) (S (stmt db)).

(** One request, run as one statement. *)
Definition respond (db : t) (req : Request) : t * Response.t :=
  match req with
  | SelectOrderByCreatedAt ascending =>
      (next db (rows db), Response.ok (Some (to_todo <$> select db ascending)))
  | Insert p =>
      match insert_row db p with
      | inl e => (next db (rows db), Response.fail e)
      | inr new => (next db (rows db ++ [new]), Response.ok None)
      end
  | Update p id =>
      match decode p with
      | inl e => (next db (rows db), Response.fail e)
      | inr f =>
          match update_rows db f id (rows db) with
          | inl e => (next db (rows db), Response.fail e)
          | inr rs => (next db rs, Response.ok None)
          end
      end
  | Delete id => (next db (delete_rows db id), Response.ok None)
  end.

(** The primary key. *)
Definition wf (db : t) : Prop := NoDup (TodoRow.id <$> rows db).

(** A collection is [fetched_desc] when it is what the client receives for
    a list of rows in descending order of [created_at]. *)
Definition fetched_desc (todos : list Todo.t) : Prop :=
  exists rs : list TodoRow.t, StronglySorted created_desc rs /\ todos = to_todo <$> rs.

End Pg.
End Pg.

(** ** A store that cannot be reached *)

(** The collaborator as the client sees it when the transport fails: every
    request resolves to an error and nothing is stored. *)
Definition unreachable (message : string) (s : unit) (req : Request) : unit * Response.t :=
  (s, Response.fail message).

(** ** A concrete platform

    One instance of the parameters above, used to evaluate the component
    on concrete inputs: timestamps of the years 0000 to 9999 printed in
    UTC the way the store's JSON prints them, read back in the format that
    [toISOString] prints, one second between statements. *)
Module Platform.

Fixpoint pad (width : nat) (n : Z) : string :=
  match width with
  | O => EmptyString
  | S w => pad w (n / 10) +:+ String (ascii_of_nat (48 + Z.to_nat (n mod 10))) EmptyString
  end.

(** The civil date of a day number (days since 1970-01-01). *)
Definition civil_from_days (days : Z) : Z * Z * Z :=
  let z := (days + 719468)%Z in
  let era := (z / 146097)%Z in
  let doe := (z - era * 146097)%Z in
  let yoe := ((doe - doe / 1460 + doe / 36524 - doe / 146096) / 365)%Z in
  let doy := (doe - (365 * yoe + yoe / 4 - yoe / 100))%Z in
  let mp := ((5 * doy + 2) / 153)%Z in
  let d := (doy - (153 * mp + 2) / 5 + 1)%Z in
  let m := (if (mp <? 10)%Z then mp + 3 else mp - 9)%Z in
  let y := (yoe + era * 400 + (if (m <=? 2)%Z then 1 else 0))%Z in
  (y, m, d).

Definition days_from_civil (y m d : Z) : Z :=
  let y := (if (m <=? 2)%Z then y - 1 else y)%Z in
  let era := (y / 400)%Z in
  let yoe := (y - era * 400)%Z in
  let doy := ((153 * (if (2 <? m)%Z then m - 3 else m + 9) + 2) / 5 + d - 1)%Z in
  let doe := (yoe * 365 + yoe / 4 - yoe / 100 + doy)%Z in
  (era * 146097 + doe - 719468)%Z.

Fixpoint drop_zeros (s : string) : string :=
  match s with
  | String "0" r => drop_zeros r
  | _ => s
  end.

Definition fraction (micros : Z) : string :=
  if (micros =? 0)%Z then EmptyString
  else "." +:+ String.rev (drop_zeros (String.rev (pad 6 micros))).

Definition timestamptz_out (t : Z) : string :=
  let secs := (t / 1000000)%Z in
  let micros := (t mod 1000000)%Z in
  let days := (secs / 86400)%Z in
  let sod := (secs mod 86400)%Z in
  let '(y, m, d) := civil_from_days days in
  pad 4 y +:+ "-" +:+ pad 2 m +:+ "-" +:+ pad 2 d +:+ "T"
  +:+ pad 2 (sod / 3600) +:+ ":" +:+ pad 2 (sod mod 3600 / 60) +:+ ":"
  +:+ pad 2 (sod mod 60) +:+ fraction micros +:+ "+00:00".

Definition number (s : string) : option Z :=
  Z.of_nat <$> JS.digits 0 (list_ascii_of_string s).

(** Reads [YYYY-MM-DDTHH:mm:ss.sssZ]. *)
Definition timestamptz_in (s : string) : option Z :=
  if (String.length s =? 24)%nat
     && String.eqb (String.substring 10 1 s) "T"
     && String.eqb (String.substring 13 1 s) ":"
     && String.eqb (String.substring 16 1 s) ":"
     && String.eqb (String.substring 19 1 s) "."
     && String.eqb (String.substring 23 1 s) "Z"
  then
    match JS.parse_date_only (String.substring 0 10 s),
          number (String.substring 11 2 s), number (String.substring 14 2 s),
          number (String.substring 17 2 s), number (String.substring 20 3 s) with
    | Some (y, m, d), Some hh, Some mm, Some ss, Some ms =>
        if ((hh <? 24) && (mm <? 60) && (ss <? 60))%Z then
          Some (((days_from_civil (Z.of_nat y) (Z.of_nat m) (Z.of_nat d) * 86400
                  + hh * 3600 + mm * 60 + ss) * 1000 + ms) * 1000)%Z
        else None
    | _, _, _, _, _ => None
    end
  else None.

(** 2024-01-01T00:00:00Z, then one second per statement. *)
Definition clock (n : nat) : Z := (1704067200000000 + 1000000 * Z.of_nat n)%Z.

Definition gen_random_uuid (n : nat) : string :=
  "6f1c2a9e-0000-4000-8000-" +:+ pad 12 (Z.of_nat n).

(** An engine whose [Date] takes nothing but the date-only form. *)
Definition Date_other (s : string) : option string := None.

Definition to_todo : TodoRow.t -> Todo.t := Pg.to_todo timestamptz_out.
Definition respond : Pg.t -> Request -> Pg.t * Response.t :=
  Pg.respond timestamptz_out timestamptz_in clock gen_random_uuid.

End Platform.


(** ** Sample data *)

Module Sample.

Definition alice : Session.t :=
  Session.mk 1 "token-alice" (Session.mkUser "a11ce000-0000-4000-8000-000000000001").

Definition bob : Session.t :=
  Session.mk 2 "token-bob" (Session.mkUser "b0b00000-0000-4000-8000-000000000002").

(** Created 2023-11-14 22:13:20, due 2024-05-01 15:30:00. *)
Definition milk : TodoRow.t :=
  TodoRow.mk "0a000000-0000-4000-8000-00000000000a" (Session.id (Session.user alice))
    "Buy milk" None false (Some 1714577400000000%Z) 1700000000000000%Z 1700000000000000%Z.

(** Created one hour later, no due date. *)
Definition taxes : TodoRow.t :=
  TodoRow.mk "0b000000-0000-4000-8000-00000000000b" (Session.id (Session.user alice))
    "File taxes" (Some "before April") true None 1700003600000000%Z 1700003600000000%Z.

Definition db (uid : option string) : Pg.t := Pg.mk [milk; taxes] uid 0.
Definition db_alice : Pg.t := db (Some (Session.id (Session.user alice))).
Definition db_anonymous : Pg.t := db None.

Definition signed_in (todos : list Todo.t) : State.t :=
  State.mk (Some alice) false todos None EmptyString EmptyString EmptyString None all.

Definition run {A : Type} (p : Prog A) (st : State.t) (d : Pg.t) : Run.t Pg.t A :=
  run Platform.respond p st d.

End Sample.

(** ** Notions used to state the properties *)

(** The value of [payload] in [handleSubmitTodo], for the render [st], its
    session and the converted due date. *)
Definition payload_of (st : State.t) (session : Session.t) (due : option string) : Payload.t :=
  {| Payload.title := JS.trim (State.title st);
     Payload.description :=
       (let d := JS.trim (State.description st) in
        if JS.truthy d then Some d else None);
     Payload.due_date := due;
     Payload.user_id := Session.id (Session.user session) |}.

(** The request that [handleSubmitTodo] sends with that payload. *)
Definition submit_request (st : State.t) (payload : Payload.t) : Request :=
  if JS.truthy_opt (State.editingId st)
  then Update (PatchForm payload) (default EmptyString (State.editingId st))
  else Insert payload.

(** The state that [resetForm] leaves. *)
Definition form_reset (st : State.t) : State.t :=
  State.set_editingId None
    (State.set_dueDate EmptyString (State.set_description EmptyString (State.set_title EmptyString st))).

(** The operations of the task list that change the store. *)
Definition mutation (ev : Event) : bool :=
  match ev with
  | SubmitTodo | ToggleComplete _ | DeleteTodo _ => true
  | _ => false
  end.

(** What [dueDate ? new Date(dueDate).toISOString() : null] evaluates to:
    the exception it throws or its value. *)
Definition draft_due (Date_other : string -> option string) (dueDate : string)
    : Exn + option string :=
  if JS.truthy dueDate then
    match JS.toISOString Date_other dueDate with
    | Some iso => inr (Some iso)
    | None => inl (RangeError "Invalid time value")
    end
  else inr None.


(** ** The login card *)

(** The state of the login form: [authMode], [email], [password] and
    [authLoading]. *)
Module Login.
Inductive Mode : Type := login | signup.

Record t : Type := mk {
  authMode : Mode;
  email : string;
  password : string;
  authLoading : bool
}.

Definition init : t := mk login EmptyString EmptyString false.

Definition set_authLoading v (f : t) : t :=
  mk (authMode f) (email f) (password f) v.
End Login.

(** The calls on [supabase.auth] that the handlers make. *)
Inductive AuthRequest : Type :=
| SignInWithPassword (email password : string)
| SignUp (email password : string)
| SignOut.

(** Programs of the login card: they set the login form and the component
    state and wait for the auth collaborator, which answers with
    [error.message] or with no error. *)
Inductive AuthProg (A : Type) : Type :=
| ARet (a : A)
| ASetLogin (f : Login.t -> Login.t) (k : AuthProg A)
| ASetState (f : State.t -> State.t) (k : AuthProg A)
| AAwait (req : AuthRequest) (k : option string -> AuthProg A).

Arguments ARet {A} a.
Arguments ASetLogin {A} f k.
Arguments ASetState {A} f k.
Arguments AAwait {A} req k.

(** [handleAuth], in the closure of a render whose login form is
    [form]. *)
Definition handleAuth (form : Login.t) : AuthProg unit :=
  ASetLogin (Login.set_authLoading true)
    (ASetState (State.set_error None)
       (match Login.authMode form with
        | Login.login =>
            AAwait (SignInWithPassword (Login.email form) (Login.password form))
              (fun error =>
                 match error with
                 | Some message =>
                     ASetState (State.set_error (Some message))
                       (ASetLogin (Login.set_authLoading false) (ARet tt))
                 | None => ASetLogin (Login.set_authLoading false) (ARet tt)
                 end)
        | Login.signup =>
            AAwait (SignUp (Login.email form) (Login.password form))
              (fun error =>
                 match error with
                 | Some message =>
                     ASetState (State.set_error (Some message))
                       (ASetLogin (Login.set_authLoading false) (ARet tt))
                 | None => ASetLogin (Login.set_authLoading false) (ARet tt)
                 end)
        end)).

(** [handleLogout]: the result of [signOut] is not looked at. *)
Definition handleLogout : AuthProg unit :=
  AAwait SignOut (fun _ => ARet tt).

Module AuthRun.
Record t (U : Type) : Type := mk {
  form : Login.t;
  state : State.t;
  auth : U;
  trace : list (AuthRequest * option string)
}.
Arguments mk {U}.
Arguments form {U}.
Arguments state {U}.
Arguments auth {U}.
Arguments trace {U}.
End AuthRun.

Fixpoint run_auth {U A : Type} (respond : U -> AuthRequest -> U * option string)
    (p : AuthProg A) (form : Login.t) (st : State.t) (u : U) : AuthRun.t U :=
  match p with
  | ARet _ => AuthRun.mk form st u []
  | ASetLogin f k => run_auth respond k (f form) st u
  | ASetState f k => run_auth respond k form (f st) u
  | AAwait req k =>
      let ur := respond u req in
      let r := run_auth respond (k (snd ur)) form st (fst ur) in
      AuthRun.mk (AuthRun.form r) (AuthRun.state r) (AuthRun.auth r)
        ((req, snd ur) :: AuthRun.trace r)
  end.

(** ** Reachable states *)

(** The states the component reaches from its mount: by an event that the
    view offers, handled to completion, or by a change of the store that
    others make. *)
Inductive reachable {S : Type} (Date_other : string -> option string)
    (respond : S -> Request -> S * Response.t) : State.t -> S -> Prop :=
| reachable_mount (s : S) : reachable Date_other respond State.init s
| reachable_event (st : State.t) (s : S) (ev : Event) :
    reachable Date_other respond st s ->
    offered st ev = true ->
    reachable Date_other respond
      (Run.state (run respond (handle Date_other ev st) st s))
      (Run.store (run respond (handle Date_other ev st) st s))
| reachable_store (st : State.t) (s s' : S) :
    reachable Date_other respond st s ->
    reachable Date_other respond st s'.

(** The payload of a request that carries the form. *)
Definition form_payload (req : Request) : option Payload.t :=
  match req with
  | Insert p => Some p
  | Update (PatchForm p) _ => Some p
  | _ => None
  end.

(** The callbacks of the auth client, as opposed to what the user does. *)
Definition auth_event (ev : Event) : bool :=
  match ev with
  | GetSessionResolved _ | AuthStateChange _ => true
  | _ => false
  end.

(** * Properties *)

(** ** Running programs *)

Section RunFacts.
Context {S : Type} (respond : S -> Request -> S * Response.t).

Lemma run_set (f : State.t -> State.t) (st : State.t) (s : S) :
  run respond (set f) st s = Run.mk (Done tt) (f st) s [].
Proof. reflexivity. Qed.

Lemma run_bind {A B : Type} (p : Prog A) (f : A -> Prog B) (st : State.t) (s : S) :
  run respond (p ≫= f) st s =
  let r1 := run respond p st s in
  match Run.outcome r1 with
  | Done a =>
      let r2 := run respond (f a) (Run.state r1) (Run.store r1) in
      Run.mk (Run.outcome r2) (Run.state r2) (Run.store r2) (Run.trace r1 ++ Run.trace r2)
  | Rejected e => Run.mk (Rejected e) (Run.state r1) (Run.store r1) (Run.trace r1)
  end.
Proof.
  unfold mbind, Prog_bind. revert st s.
  induction p as [a|e|g k IH|req k IH]; intros st s; simpl.
  - by destruct (run respond (f a) st s).
  - done.
  - apply IH.
  - rewrite IH. simpl. by destruct (Run.outcome (run respond (k _) st _)).
Qed.

(** A fetch sends one request; on an error it keeps the collection. *)
Lemma run_fetchTodos (st : State.t) (s : S) :
  run respond fetchTodos st s =
  let sr := respond s (SelectOrderByCreatedAt false) in
  Run.mk (Done tt)
    (match Response.error (snd sr) with
     | Some message => State.set_error (Some message) st
     | None => State.set_todos (default [] (Response.data (snd sr))) (State.set_error None st)
     end)
    (fst sr) [(SelectOrderByCreatedAt false, snd sr)].
Proof.
  unfold fetchTodos, mbind, Prog_bind. simpl.
  by destruct (Response.error (snd (respond s (SelectOrderByCreatedAt false)))).
Qed.

End RunFacts.

(** ** Operations and the session *)

Section Client.
Variable Date_other : string -> option string.
Context {S : Type} (respond : S -> Request -> S * Response.t).

Lemma handleSubmitTodo_no_session (st : State.t) :
  State.session st = None -> handleSubmitTodo Date_other st = Ret tt.
Proof. intros H. unfold handleSubmitTodo. by rewrite H. Qed.

Lemma toggleComplete_sends (todo : Todo.t) (st : State.t) (s : S) :
  exists rest,
    Run.trace (run respond (toggleComplete todo) st s) =
    (Update (PatchCompleted (negb (Todo.completed todo))) (Todo.id todo),
     snd (respond s (Update (PatchCompleted (negb (Todo.completed todo))) (Todo.id todo))))
    :: rest.
Proof. simpl. eauto. Qed.

Lemma deleteTodo_sends (id : string) (st : State.t) (s : S) :
  exists rest,
    Run.trace (run respond (deleteTodo id) st s) =
    (Delete id, snd (respond s (Delete id))) :: rest.
Proof. simpl. eauto. Qed.

(** C1, as amended: without a session [handleSubmitTodo] (create and
    update) returns at once, with no request, no state change and no
    exception.  [toggleComplete], [deleteTodo] and [fetchTodos] do not
    look at the session and send their request all the same; what keeps
    them from running without a session is the view, which then offers
    neither the form nor the list, and the session effect, which then
    clears the collection instead of fetching. *)
Theorem session_guard (st : State.t) (s : S) :
  State.session st = None ->
  run respond (handleSubmitTodo Date_other st) st s = Run.mk (Done tt) st s []
  /\ (forall todo, exists rest,
        Run.trace (run respond (toggleComplete todo) st s) =
        (Update (PatchCompleted (negb (Todo.completed todo))) (Todo.id todo),
         snd (respond s (Update (PatchCompleted (negb (Todo.completed todo))) (Todo.id todo))))
        :: rest)
  /\ (forall id, exists rest,
        Run.trace (run respond (deleteTodo id) st s) =
        (Delete id, snd (respond s (Delete id))) :: rest)
  /\ Run.trace (run respond fetchTodos st s) =
     [(SelectOrderByCreatedAt false, snd (respond s (SelectOrderByCreatedAt false)))]
  /\ (forall ev, mutation ev = true -> offered st ev = false)
  /\ sessionEffect (State.session st) = setTodos [].
Proof.
  intros Hs. repeat split.
  - by rewrite handleSubmitTodo_no_session.
  - intros todo. apply toggleComplete_sends.
  - intros id. apply deleteTodo_sends.
  - by rewrite run_fetchTodos.
  - intros ev Hev. destruct ev; try discriminate Hev; simpl; rewrite Hs;
      apply andb_false_r.
  - by rewrite Hs.
Qed.

End Client.

(** The witness of [session_guard]: the component as mounted, before any
    session is known, against the sample database. *)
Lemma session_guard_witness :
  State.session State.init = None /\
  Sample.run (handleSubmitTodo Platform.Date_other State.init) State.init Sample.db_anonymous
  = Run.mk (Done tt) State.init Sample.db_anonymous [].
Proof.
  split; [reflexivity|].
  apply (session_guard Platform.Date_other Platform.respond State.init Sample.db_anonymous).
  reflexivity.
Defined.

(** C1 as stated fails: with no session, [toggleComplete] does not refuse;
    it sends its update, and then its fetch.  (The anonymous request
    matches no row under the policies, and the fetch returns none.) *)
Lemma toggle_without_session :
  State.session State.init = None /\
  Run.trace (Sample.run (toggleComplete (Platform.to_todo Sample.milk))
               State.init Sample.db_anonymous)
  = [(Update (PatchCompleted true) (TodoRow.id Sample.milk), Response.ok None);
     (SelectOrderByCreatedAt false, Response.ok (Some []))].
Proof. split; reflexivity. Qed.

(** ** Failures reported by the store *)

Section Failures.
Variable Date_other : string -> option string.
Context {S : Type} (respond : S -> Request -> S * Response.t).

(** What a handler does with the response to its mutation. *)
Lemma run_after_mutation (req : Request) (st : State.t) (s : S) (ok : Prog unit) :
  run respond
    (r ← await req;
     match Response.error r with
     | Some message => setError (Some message)
     | None => ok
     end) st s =
  let sr := respond s req in
  match Response.error (snd sr) with
  | Some message =>
      Run.mk (Done tt) (State.set_error (Some message) st) (fst sr) [(req, snd sr)]
  | None =>
      let r := run respond ok st (fst sr) in
      Run.mk (Run.outcome r) (Run.state r) (Run.store r) ((req, snd sr) :: Run.trace r)
  end.
Proof.
  unfold mbind, Prog_bind. simpl.
  by destruct (Response.error (snd (respond s req))).
Qed.

Lemma run_resetForm_then (p : Prog unit) (st : State.t) (s : S) :
  run respond (resetForm;; p) st s = run respond p (form_reset st) s.
Proof. reflexivity. Qed.

(** The three ways [handleSubmitTodo] sends its mutation are one. *)
Lemma handleSubmitTodo_eq (st : State.t) (session : Session.t) :
  State.session st = Some session ->
  handleSubmitTodo Date_other st =
  (setError None;;
   due ← due_date_of_draft Date_other (State.dueDate st);
   if JS.truthy (JS.trim (State.title st)) then
     r ← await (submit_request st (payload_of st session due));
     match Response.error r with
     | Some message => setError (Some message)
     | None => resetForm;; fetchTodos
     end
   else setError (Some "Title is required")).
Proof.
  intros Hs. unfold handleSubmitTodo, submit_request, payload_of. rewrite Hs.
  f_equal. simpl.
  destruct (JS.truthy (JS.trim (State.title st))); simpl; [|done].
  destruct (State.editingId st) as [editingId|]; simpl; [|done].
  by destruct (JS.truthy editingId).
Qed.

Lemma run_due_date_of_draft (dueDate : string) (st : State.t) (s : S) :
  run respond (due_date_of_draft Date_other dueDate) st s =
  Run.mk
    (match draft_due Date_other dueDate with
     | inr due => Done due
     | inl e => Rejected e
     end) st s [].
Proof.
  unfold due_date_of_draft, draft_due. destruct (JS.truthy dueDate); [|done].
  by destruct (JS.toISOString Date_other dueDate).
Qed.

(** The whole run of [handleSubmitTodo] with a session. *)
Lemma run_handleSubmitTodo (st : State.t) (session : Session.t) (s : S) :
  State.session st = Some session ->
  run respond (handleSubmitTodo Date_other st) st s =
  match draft_due Date_other (State.dueDate st) with
  | inl e => Run.mk (Rejected e) (State.set_error None st) s []
  | inr due =>
      if JS.truthy (JS.trim (State.title st)) then
        let req := submit_request st (payload_of st session due) in
        let sr := respond s req in
        match Response.error (snd sr) with
        | Some message =>
            Run.mk (Done tt) (State.set_error (Some message) st) (fst sr) [(req, snd sr)]
        | None =>
            let r := run respond fetchTodos (form_reset (State.set_error None st)) (fst sr) in
            Run.mk (Run.outcome r) (Run.state r) (Run.store r) ((req, snd sr) :: Run.trace r)
        end
      else Run.mk (Done tt) (State.set_error (Some "Title is required") st) s []
  end.
Proof.
  intros Hs. rewrite (handleSubmitTodo_eq st session Hs).
  rewrite run_bind. unfold setError at 1. rewrite run_set.
  cbn [Run.outcome Run.state Run.store Run.trace app].
  rewrite run_bind, run_due_date_of_draft.
  cbn [Run.outcome Run.state Run.store Run.trace app].
  destruct (draft_due Date_other (State.dueDate st)) as [e|due]; [done|].
  destruct (JS.truthy (JS.trim (State.title st))).
  - rewrite run_after_mutation. cbv zeta.
    destruct (Response.error (snd (respond s _))); [done|].
    rewrite run_resetForm_then. by destruct (run respond fetchTodos _ _).
  - done.
Qed.

(** C2: when the store answers a mutation (insert, update, toggle or
    delete) with an error, the handler stores that message as the current
    error, replacing the previous one, and stops: the mutation is the only
    request it sent (no retry and no fetch), and nothing else of the state
    changes. *)
Theorem mutation_failure (ev : Event) (st : State.t) (s : S)
    (req : Request) (resp : Response.t) (rest : list (Request * Response.t))
    (message : string) :
  mutation ev = true ->
  Run.trace (run respond (handle Date_other ev st) st s) = (req, resp) :: rest ->
  Response.error resp = Some message ->
  is_select req = false
  /\ rest = []
  /\ Run.outcome (run respond (handle Date_other ev st) st s) = Done tt
  /\ Run.state (run respond (handle Date_other ev st) st s)
     = State.set_error (Some message) st.
Proof.
  intros Hev Htr Herr.
  destruct ev; try discriminate Hev; cbn [handle] in Htr |- *.
  - (* handleSubmitTodo *)
    destruct (State.session st) as [session|] eqn:Hs;
      [|by rewrite handleSubmitTodo_no_session in Htr].
    rewrite (run_handleSubmitTodo st session s Hs) in Htr |- *.
    destruct (draft_due Date_other (State.dueDate st)) as [e|due];
      [discriminate Htr|].
    destruct (JS.truthy (JS.trim (State.title st))); [|discriminate Htr].
    simpl in Htr |- *.
    destruct (Response.error (snd (respond s _))) eqn:E;
      simpl in Htr |- *; inversion Htr; subst; clear Htr.
    + rewrite E in Herr. inversion Herr; subst. repeat split; try done.
      unfold submit_request. by destruct (JS.truthy_opt _).
    + congruence.
  - (* toggleComplete *)
    unfold toggleComplete in *. rewrite run_after_mutation in Htr |- *.
    simpl in Htr |- *.
    destruct (Response.error (snd (respond s _))) eqn:E;
      simpl in Htr |- *; inversion Htr; subst; clear Htr;
      [rewrite E in Herr; by inversion Herr | congruence].
  - (* deleteTodo *)
    unfold deleteTodo in *. rewrite run_after_mutation in Htr |- *.
    simpl in Htr |- *.
    destruct (Response.error (snd (respond s _))) eqn:E;
      simpl in Htr |- *; inversion Htr; subst; clear Htr;
      [rewrite E in Herr; by inversion Herr | congruence].
Qed.

End Failures.

(** The witness of [mutation_failure]: Alice is signed in in the component
    while the client's requests reach the database without her identity;
    the insert breaks the insert policy, its message becomes the error and
    no fetch follows. *)
Lemma mutation_failure_witness :
  let st := State.set_title "Call mum" (Sample.signed_in []) in
  let r := Sample.run (handle Platform.Date_other SubmitTodo st) st Sample.db_anonymous in
  mutation SubmitTodo = true
  /\ Run.trace r =
     [(Insert (Payload.mk "Call mum" None None (Session.id (Session.user Sample.alice))),
       Response.fail Pg.rls_violation)]
  /\ Run.state r = State.set_error (Some Pg.rls_violation) st.
Proof.
  intros st r. split; [reflexivity|]. split; [reflexivity|].
  eapply (mutation_failure Platform.Date_other Platform.respond SubmitTodo st
            Sample.db_anonymous _ _ _ Pg.rls_violation); reflexivity.
Defined.

(** ** Trimming *)

Lemma trimStart_empty (s : string) :
  JS.trimStart s = EmptyString <->
  forallb JS.is_white_space (list_ascii_of_string s) = true.
Proof.
  induction s as [|c s IH]; simpl; [done|].
  destruct (JS.is_white_space c); simpl; [done|]. split; discriminate.
Qed.

Lemma rev_app_empty (s acc : string) :
  String.rev_app s acc = EmptyString -> s = EmptyString /\ acc = EmptyString.
Proof.
  revert acc. induction s as [|c s IH]; intros acc H; simpl in H; [done|].
  by destruct (IH _ H).
Qed.

Lemma trimStart_rev_app (s acc : string) :
  JS.trimStart acc <> EmptyString -> JS.trimStart (String.rev_app s acc) <> EmptyString.
Proof.
  revert acc. induction s as [|c s IH]; intros acc H; simpl; [done|].
  apply IH. simpl. by destruct (JS.is_white_space c).
Qed.

Lemma trimStart_head (s : string) (c : ascii) (r : string) :
  JS.trimStart s = String c r -> JS.is_white_space c = false.
Proof.
  induction s as [|a s IH]; simpl; [done|].
  destruct (JS.is_white_space a) eqn:E; [done|]. by intros [= <- _].
Qed.

(** A string trims to the empty string exactly when it is made of white
    space only (the empty string included). *)
Lemma trim_empty (s : string) :
  JS.trim s = EmptyString <->
  forallb JS.is_white_space (list_ascii_of_string s) = true.
Proof.
  rewrite <- trimStart_empty. unfold JS.trim, JS.trimEnd, String.rev. split.
  - intros H. apply rev_app_empty in H as [H _].
    destruct (JS.trimStart s) as [|c r] eqn:E; [done|]. exfalso.
    revert H. simpl. apply trimStart_rev_app. simpl.
    by rewrite (trimStart_head s c r E).
  - by intros ->.
Qed.

(** ** Fetching, validation and session transitions *)

Section Controller.
Variable Date_other : string -> option string.
Context {S : Type} (respond : S -> Request -> S * Response.t).

(** C4: when the fetch fails, the store's message becomes the current
    error and the collection held in memory stays as it was; indeed
    nothing but the error changes. *)
Theorem fetch_failure (st : State.t) (s : S) (message : string) :
  Response.error (snd (respond s (SelectOrderByCreatedAt false))) = Some message ->
  State.error (Run.state (run respond fetchTodos st s)) = Some message
  /\ State.todos (Run.state (run respond fetchTodos st s)) = State.todos st
  /\ Run.state (run respond fetchTodos st s) = State.set_error (Some message) st.
Proof. intros H. rewrite run_fetchTodos. cbv zeta. by rewrite H. Qed.


(** C8: when the tracked session goes from absent to present the
    component fetches the tasks (one select, newest first); when it goes
    from present to absent it empties the collection and sends nothing.
    Both hold for the change callback and for the initial
    [getSession]. *)
Theorem session_transition (st : State.t) (s : S) (session : Session.t) :
  (State.session st = None ->
   Run.trace (run respond (onAuthStateChange st (Some session)) st s) =
     [(SelectOrderByCreatedAt false, snd (respond s (SelectOrderByCreatedAt false)))]
   /\ Run.trace (run respond (onGetSession st (Some session)) st s) =
     [(SelectOrderByCreatedAt false, snd (respond s (SelectOrderByCreatedAt false)))]
   /\ State.session (Run.state (run respond (onAuthStateChange st (Some session)) st s))
      = Some session)
  /\ (State.session st = Some session ->
      run respond (onAuthStateChange st None) st s
      = Run.mk (Done tt) (State.set_todos [] (State.set_session None st)) s []).
Proof.
  split; intros Hs.
  - unfold onAuthStateChange, onGetSession, afterRender. rewrite Hs.
    cbn [Session.Object_is sessionEffect].
    unfold setSession, setLoading.
    rewrite !run_bind, !run_set.
    cbn [Run.outcome Run.state Run.store Run.trace app].
    rewrite !run_bind, !run_set.
    cbn [Run.outcome Run.state Run.store Run.trace app].
    rewrite !run_fetchTodos. cbv zeta.
    cbn [Run.outcome Run.state Run.store Run.trace app].
    repeat split.
    by destruct (Response.error (snd (respond s (SelectOrderByCreatedAt false)))).
  - unfold onAuthStateChange, afterRender. rewrite Hs. reflexivity.
Qed.

End Controller.

(** The witness of [fetch_failure]: the store cannot be reached while the
    component shows one task. *)
Lemma fetch_failure_witness :
  let st := Sample.signed_in [Platform.to_todo Sample.milk] in
  State.todos (Run.state (run (unreachable "TypeError: Failed to fetch") fetchTodos st tt))
  = [Platform.to_todo Sample.milk].
Proof.
  intros st.
  apply (fetch_failure (unreachable "TypeError: Failed to fetch") st tt
           "TypeError: Failed to fetch").
  reflexivity.
Defined.


(** The witness of [session_transition]: Alice logs in, then out. *)
Lemma session_transition_witness :
  Run.trace (Sample.run (onAuthStateChange State.init (Some Sample.alice))
               State.init Sample.db_alice)
  = [(SelectOrderByCreatedAt false,
      snd (Platform.respond Sample.db_alice (SelectOrderByCreatedAt false)))]
  /\ Sample.run (onAuthStateChange (Sample.signed_in [Platform.to_todo Sample.milk]) None)
       (Sample.signed_in [Platform.to_todo Sample.milk]) Sample.db_anonymous
     = Run.mk (Done tt)
         (State.set_todos []
            (State.set_session None (Sample.signed_in [Platform.to_todo Sample.milk])))
         Sample.db_anonymous [].
Proof.
  split.
  - apply (session_transition Platform.respond State.init Sample.db_alice Sample.alice).
    reflexivity.
  - apply (session_transition Platform.respond
             (Sample.signed_in [Platform.to_todo Sample.milk]) Sample.db_anonymous
             Sample.alice).
    reflexivity.
Defined.

(** ** The filtered view *)

Lemma filter_sublist {A : Type} (p : A -> bool) (l : list A) :
  List.filter p l `sublist_of` l.
Proof.
  induction l as [|x l IH]; simpl; [constructor|].
  destruct (p x); by constructor.
Qed.

Lemma filter_split_length {A : Type} (p : A -> bool) (l : list A) :
  List.length (List.filter (fun x => negb (p x)) l) + List.length (List.filter p l) = List.length l.
Proof.
  induction l as [|x l IH]; simpl; [done|].
  destruct (p x); simpl; lia.
Qed.

(** C3: the active view holds exactly the todos that are not completed,
    the completed view exactly those that are, and the view under [all] is
    the collection itself.  Each view keeps the order of the collection
    (it is a subsequence of it) and loses no occurrence (the two views
    together are as long as the collection).  The view is a function of
    the collection and the filter alone: it sends no request. *)
Theorem filteredTodos_spec (todos : list Todo.t) :
  filteredTodos todos all = todos
  /\ filteredTodos todos active `sublist_of` todos
  /\ filteredTodos todos completed `sublist_of` todos
  /\ (forall t, t ∈ filteredTodos todos active <-> t ∈ todos /\ Todo.completed t = false)
  /\ (forall t, t ∈ filteredTodos todos completed <-> t ∈ todos /\ Todo.completed t = true)
  /\ List.length (filteredTodos todos active) + List.length (filteredTodos todos completed)
     = List.length todos.
Proof.
  split; [done|]. split; [apply filter_sublist|]. split; [apply filter_sublist|].
  split; [|split].
  - intros t. simpl. rewrite !list_elem_of_In, filter_In.
    by rewrite negb_true_iff.
  - intros t. simpl. by rewrite !list_elem_of_In, filter_In.
  - apply (filter_split_length Todo.completed).
Qed.

(** ** Editing *)

Section Editing.
Variable Date_other : string -> option string.
Context {S : Type} (respond : S -> Request -> S * Response.t).

Lemma is_date_only_truthy (s : string) :
  JS.is_date_only s = true -> JS.truthy s = true.
Proof. by destruct s. Qed.

Lemma slice0_truthy (n : nat) (s : string) :
  JS.truthy (JS.slice0 n s) = true -> JS.truthy s = true.
Proof. destruct s; [|done]. by destruct n. Qed.

Lemma draft_due_date_only (s : string) :
  JS.is_date_only s = true ->
  draft_due Date_other s = inr (Some (s +:+ "T00:00:00.000Z")).
Proof.
  intros H. unfold draft_due, JS.toISOString.
  by rewrite (is_date_only_truthy s H), H.
Qed.

(** The run of [handleSubmitTodo] in edit mode, down to its update. *)
Lemma run_update (st : State.t) (session : Session.t) (id : string)
    (due : option string) (s : S) :
  State.session st = Some session ->
  State.editingId st = Some id ->
  JS.truthy id = true ->
  JS.truthy (JS.trim (State.title st)) = true ->
  draft_due Date_other (State.dueDate st) = inr due ->
  exists rest,
    Run.trace (run respond (handleSubmitTodo Date_other st) st s) =
    (Update (PatchForm (payload_of st session due)) id,
     snd (respond s (Update (PatchForm (payload_of st session due)) id))) :: rest.
Proof.
  intros Hs He Hid Ht Hd. rewrite (run_handleSubmitTodo _ _ st session s Hs).
  rewrite Hd, Ht. unfold submit_request. rewrite He. cbn [JS.truthy_opt default].
  rewrite Hid. cbv zeta.
  destruct (Response.error (snd (respond s _))); eauto.
Qed.


(** C10: [startEdit] puts the first ten characters of the stored due date
    in the draft, and saving the form sends that calendar date at midnight
    UTC: whatever the time of day of the stored due date was, the update
    carries [00:00:00.000Z]. *)
Theorem edit_resets_time_of_day (todo : Todo.t) (due : string) (st : State.t)
    (session : Session.t) (s s' : S) :
  Todo.due_date todo = Some due ->
  JS.is_date_only (JS.slice0 10 due) = true ->
  State.session st = Some session ->
  JS.truthy (Todo.id todo) = true ->
  JS.truthy (JS.trim (Todo.title todo)) = true ->
  let editing := Run.state (run respond (startEdit todo) st s) in
  State.dueDate editing = JS.slice0 10 due
  /\ exists payload rest,
       Run.trace (run respond (handleSubmitTodo Date_other editing) editing s') =
         (Update (PatchForm payload) (Todo.id todo),
          snd (respond s' (Update (PatchForm payload) (Todo.id todo)))) :: rest
       /\ Payload.due_date payload = Some (JS.slice0 10 due +:+ "T00:00:00.000Z").
Proof.
  intros Hdue Hdate Hs Hid Ht editing.
  assert (Hdraft : State.dueDate editing = JS.slice0 10 due).
  { subst editing. simpl. rewrite Hdue.
    by rewrite (slice0_truthy 10 due (is_date_only_truthy _ Hdate)). }
  split; [done|].
  destruct (run_update editing session (Todo.id todo)
              (Some (JS.slice0 10 due +:+ "T00:00:00.000Z")) s') as [rest Hrest];
    try done.
  - rewrite Hdraft. by apply draft_due_date_only.
  - by eexists _, rest.
Qed.

End Editing.


(** The witness of [edit_resets_time_of_day]: the task is due on
    2024-05-01 at 15:30. *)
Lemma edit_resets_time_of_day_witness :
  let todo := Platform.to_todo Sample.milk in
  let st := Sample.signed_in [todo] in
  Todo.due_date todo = Some "2024-05-01T15:30:00+00:00"
  /\ State.dueDate (Run.state (Sample.run (startEdit todo) st Sample.db_alice))
     = "2024-05-01".
Proof.
  intros todo st. split; [reflexivity|].
  apply (edit_resets_time_of_day Platform.Date_other Platform.respond todo
           "2024-05-01T15:30:00+00:00" st Sample.alice Sample.db_alice Sample.db_alice);
    reflexivity.
Defined.

(** Editing the sample task and saving it unchanged, against the
    database: the due date comes back as midnight. *)
Example edit_and_save_moves_due_date :
  let todo := Platform.to_todo Sample.milk in
  let st := Sample.signed_in [todo] in
  let editing := Run.state (Sample.run (startEdit todo) st Sample.db_alice) in
  let saved := Sample.run (handleSubmitTodo Platform.Date_other editing) editing Sample.db_alice in
  Todo.due_date todo = Some "2024-05-01T15:30:00+00:00"
  /\ (Todo.due_date <$> State.todos (Run.state saved))
     = [None; Some "2024-05-01T00:00:00+00:00"].
Proof. split; vm_compute; reflexivity. Qed.

(** ** The component against the database *)

#[global] Instance created_desc_total : Total created_desc.
Proof. intros a b. unfold created_desc. lia. Qed.

#[global] Instance created_asc_total : Total created_asc.
Proof. intros a b. unfold created_asc. lia. Qed.

#[global] Instance created_desc_trans : Transitive created_desc.
Proof. intros a b c. unfold created_desc. lia. Qed.

Lemma NoDup_fmap_eq {A B : Type} (f : A -> B) (l : list A) (x y : A) :
  NoDup (f <$> l) -> x ∈ l -> y ∈ l -> f x = f y -> x = y.
Proof.
  induction l as [|a l IH]; intros Hnd Hx Hy Hf; [by inv Hx|].
  rewrite fmap_cons in Hnd. apply NoDup_cons in Hnd as [Ha Hnd].
  apply elem_of_cons in Hx as [->|Hx]; apply elem_of_cons in Hy as [->|Hy];
    try done.
  - exfalso. apply Ha. rewrite Hf. by apply list_elem_of_fmap_2.
  - exfalso. apply Ha. rewrite <- Hf. by apply list_elem_of_fmap_2.
  - by apply IH.
Qed.

Section Database.
Variable timestamptz_out : Z -> string.
Variable timestamptz_in : string -> option Z.
Variable clock : nat -> Z.
Variable gen_random_uuid : nat -> string.
Variable Date_other : string -> option string.

Local Abbreviation respond :=
  (Pg.respond timestamptz_out timestamptz_in clock gen_random_uuid).
Local Abbreviation to_todo := (Pg.to_todo timestamptz_out).
Local Abbreviation fetched_desc := (Pg.fetched_desc timestamptz_out).
Local Abbreviation toggled := (Pg.toggled clock).

Lemma policy_next (db : Pg.t) (rs : list TodoRow.t) (r : TodoRow.t) :
  Pg.policy (Pg.next db rs) r = Pg.policy db r.
Proof. reflexivity. Qed.

Lemma elem_of_select (db : Pg.t) (ascending : bool) (r : TodoRow.t) :
  r ∈ Pg.select db ascending <-> r ∈ Pg.rows db /\ Pg.policy db r = true.
Proof.
  unfold Pg.select. destruct ascending;
    rewrite merge_sort_Permutation, list_elem_of_In, filter_In, <- list_elem_of_In;
    done.
Qed.

Lemma select_sorted (db : Pg.t) : StronglySorted created_desc (Pg.select db false).
Proof. unfold Pg.select. apply StronglySorted_merge_sort; apply _. Qed.

(** A fetch from the database always succeeds and delivers the caller's
    rows, newest first. *)
Lemma run_fetchTodos_pg (st : State.t) (db : Pg.t) :
  run respond fetchTodos st db =
  Run.mk (Done tt)
    (State.set_todos (to_todo <$> Pg.select db false) (State.set_error None st))
    (Pg.next db (Pg.rows db))
    [(SelectOrderByCreatedAt false, Response.ok (Some (to_todo <$> Pg.select db false)))].
Proof. by rewrite run_fetchTodos. Qed.

Lemma fetched_desc_select (db : Pg.t) : fetched_desc (to_todo <$> Pg.select db false).
Proof. exists (Pg.select db false). split; [apply select_sorted|done]. Qed.

Lemma fetched_desc_nil : fetched_desc [].
Proof. exists []. split; [constructor|done]. Qed.

Lemma update_rows_completed (db : Pg.t) (c : bool) (id : string) (rs : list TodoRow.t) :
  Pg.update_rows clock db (TodoRow.set_completed c) id rs = inr (toggled db c id <$> rs).
Proof.
  induction rs as [|r rs IH]; [done|].
  simpl. unfold toggled at 1.
  destruct (Pg.policy db r && String.eqb (TodoRow.id r) id) eqn:E.
  - apply andb_true_iff in E as [Hp _].
    replace (Pg.policy db (Pg.set_updated_at clock db (TodoRow.set_completed c r)))
      with (Pg.policy db r) by done.
    by rewrite Hp, IH.
  - by rewrite IH.
Qed.

Lemma toggled_id (db : Pg.t) (c : bool) (id : string) (r : TodoRow.t) :
  TodoRow.id (toggled db c id r) = TodoRow.id r.
Proof. unfold toggled. by destruct (_ && _). Qed.

Lemma run_toggleComplete_pg (todo : Todo.t) (st : State.t) (db : Pg.t) :
  State.todos (Run.state (run respond (toggleComplete todo) st db)) =
  to_todo <$>
    Pg.select
      (Pg.next db (toggled db (negb (Todo.completed todo)) (Todo.id todo) <$> Pg.rows db))
      false.
Proof.
  unfold toggleComplete. rewrite run_after_mutation. cbv zeta.
  cbn [Pg.respond Pg.decode]. rewrite update_rows_completed.
  cbn [snd fst Response.error Response.ok]. by rewrite run_fetchTodos_pg.
Qed.

(** C5, as amended: toggling a task that the caller owns and fetching
    yields exactly one task with its id; its [completed] is flipped, its
    [updated_at] is the time of the update (the [before update] trigger
    sets it), and its owner, title, description, due date and creation
    time are unchanged. *)
Theorem toggle_then_fetch (db : Pg.t) (r : TodoRow.t) (st : State.t) :
  Pg.wf db ->
  r ∈ Pg.rows db ->
  Pg.policy db r = true ->
  let todo := to_todo r in
  let fetched := State.todos (Run.state (run respond (toggleComplete todo) st db)) in
  exists t : Todo.t,
    t ∈ fetched
    /\ (forall t', t' ∈ fetched -> Todo.id t' = Todo.id todo -> t' = t)
    /\ Todo.id t = Todo.id todo
    /\ Todo.completed t = negb (Todo.completed todo)
    /\ Todo.updated_at t = timestamptz_out (Pg.now clock db)
    /\ Todo.user_id t = Todo.user_id todo
    /\ Todo.title t = Todo.title todo
    /\ Todo.description t = Todo.description todo
    /\ Todo.due_date t = Todo.due_date todo
    /\ Todo.created_at t = Todo.created_at todo.
Proof.
  intros Hwf Hr Hp todo fetched. subst fetched. rewrite run_toggleComplete_pg.
  set (c := negb (Todo.completed todo)). set (id := Todo.id todo).
  set (db' := Pg.next db _).
  assert (Hnew : toggled db c id r = Pg.set_updated_at clock db (TodoRow.set_completed c r)).
  { unfold toggled, id, todo. simpl. by rewrite Hp, String.eqb_refl. }
  exists (to_todo (toggled db c id r)). split; [|split].
  - apply list_elem_of_fmap_2, elem_of_select. split.
    + by apply list_elem_of_fmap_2.
    + by rewrite Hnew.
  - intros t' Ht' Hid. apply list_elem_of_fmap in Ht' as (x & -> & Hx).
    apply elem_of_select in Hx as [Hx _]. simpl in Hx.
    apply list_elem_of_fmap in Hx as (y & -> & Hy).
    f_equal. f_equal. apply (NoDup_fmap_eq TodoRow.id (Pg.rows db)); try done.
    simpl in Hid. by rewrite toggled_id in Hid.
  - by rewrite Hnew.
Qed.

(** What an event leaves in [todos]: the collection as it was, the empty
    collection, or the result of a fetch. *)
Lemma handle_todos (ev : Event) (st : State.t) (db : Pg.t) :
  let todos' := State.todos (Run.state (run respond (handle Date_other ev st) st db)) in
  todos' = State.todos st \/ todos' = [] \/ exists db', todos' = to_todo <$> Pg.select db' false.
Proof.
  destruct ev; cbn [handle]; try (left; reflexivity).
  - (* getSession *)
    unfold onGetSession, afterRender, setSession, setLoading.
    rewrite !run_bind, !run_set. cbn [Run.outcome Run.state Run.store Run.trace app].
    rewrite !run_bind, !run_set. cbn [Run.outcome Run.state Run.store Run.trace app].
    destruct (Session.Object_is (State.session st) s); [by left|].
    destruct s as [session|]; cbn [sessionEffect].
    + rewrite run_fetchTodos_pg. right; right. by eexists.
    + right; left. reflexivity.
  - (* onAuthStateChange *)
    unfold onAuthStateChange, afterRender, setSession.
    rewrite !run_bind, !run_set. cbn [Run.outcome Run.state Run.store Run.trace app].
    destruct (Session.Object_is (State.session st) s); [by left|].
    destruct s as [session|]; cbn [sessionEffect].
    + rewrite run_fetchTodos_pg. right; right. by eexists.
    + right; left. reflexivity.
  - (* handleSubmitTodo *)
    destruct (State.session st) as [session|] eqn:Hs;
      [|rewrite handleSubmitTodo_no_session by done; by left].
    rewrite (run_handleSubmitTodo _ _ st session db Hs).
    destruct (draft_due Date_other (State.dueDate st)); [by left|].
    destruct (JS.truthy (JS.trim (State.title st))); [|by left].
    cbv zeta. destruct (Response.error (snd (respond db _))); [by left|].
    rewrite run_fetchTodos_pg. right; right. by eexists.
  - (* toggleComplete *)
    rewrite run_toggleComplete_pg. right; right. by eexists.
  - (* deleteTodo *)
    unfold deleteTodo. rewrite run_after_mutation. cbv zeta.
    cbn [Pg.respond snd fst Response.error Response.ok].
    rewrite run_fetchTodos_pg. right; right. by eexists.
Qed.

(** C7: what a fetch delivers is sorted by creation time, newest first,
    and holds exactly the caller's rows; and every event keeps the
    collection sorted that way, the fetch after a mutation included. *)
Theorem fetched_sorted (st : State.t) (db : Pg.t) :
  (exists rs : list TodoRow.t,
     State.todos (Run.state (run respond fetchTodos st db)) = to_todo <$> rs
     /\ StronglySorted created_desc rs
     /\ rs ≡ₚ List.filter (Pg.policy db) (Pg.rows db))
  /\ forall ev : Event,
       fetched_desc (State.todos st) ->
       fetched_desc (State.todos (Run.state (run respond (handle Date_other ev st) st db))).
Proof.
  split.
  - exists (Pg.select db false). rewrite run_fetchTodos_pg.
    split; [done|]. split; [apply select_sorted|].
    unfold Pg.select. apply merge_sort_Permutation.
  - intros ev Hst.
    destruct (handle_todos ev st db) as [-> | [-> | [db' ->]]];
      [done | apply fetched_desc_nil | apply fetched_desc_select].
Qed.

End Database.

(** The witness of [toggle_then_fetch]: Alice ticks the sample task. *)
Lemma toggle_then_fetch_witness :
  let todo := Platform.to_todo Sample.milk in
  let fetched :=
    State.todos (Run.state (Sample.run (toggleComplete todo) (Sample.signed_in [todo])
                              Sample.db_alice)) in
  exists t : Todo.t,
    t ∈ fetched
    /\ (forall t', t' ∈ fetched -> Todo.id t' = Todo.id todo -> t' = t)
    /\ Todo.id t = Todo.id todo
    /\ Todo.completed t = negb (Todo.completed todo)
    /\ Todo.updated_at t = Platform.timestamptz_out (Pg.now Platform.clock Sample.db_alice)
    /\ Todo.user_id t = Todo.user_id todo
    /\ Todo.title t = Todo.title todo
    /\ Todo.description t = Todo.description todo
    /\ Todo.due_date t = Todo.due_date todo
    /\ Todo.created_at t = Todo.created_at todo.
Proof.
  intros todo fetched.
  apply (toggle_then_fetch Platform.timestamptz_out Platform.timestamptz_in
           Platform.clock Platform.gen_random_uuid Sample.db_alice Sample.milk).
  - unfold Pg.wf. apply (bool_decide_unpack _). by vm_compute.
  - change (Sample.milk ∈ [Sample.milk; Sample.taxes]). constructor.
  - reflexivity.
Defined.

(** C5 as stated fails: after the toggle and the fetch, no task with the
    sample task's id has all its other fields unchanged, because its
    [updated_at] went from 2023-11-14T22:13:20 to the time of the
    update. *)
Lemma toggle_refreshes_updated_at :
  let todo := Platform.to_todo Sample.milk in
  let fetched :=
    State.todos (Run.state (Sample.run (toggleComplete todo) (Sample.signed_in [todo])
                              Sample.db_alice)) in
  (Todo.updated_at <$> List.filter (fun t => String.eqb (Todo.id t) (Todo.id todo)) fetched)
    = ["2024-01-01T00:00:00+00:00"]
  /\ Todo.updated_at todo = "2023-11-14T22:13:20+00:00"
  /\ ~ exists t : Todo.t,
         t ∈ fetched
         /\ Todo.id t = Todo.id todo
         /\ Todo.completed t = negb (Todo.completed todo)
         /\ Todo.user_id t = Todo.user_id todo
         /\ Todo.title t = Todo.title todo
         /\ Todo.description t = Todo.description todo
         /\ Todo.due_date t = Todo.due_date todo
         /\ Todo.created_at t = Todo.created_at todo
         /\ Todo.updated_at t = Todo.updated_at todo.
Proof.
  intros todo fetched. split; [by vm_compute|]. split; [by vm_compute|].
  intros (t & Hin & Hid & _ & _ & _ & _ & _ & _ & Hup).
  vm_compute in Hin.
  apply elem_of_cons in Hin as [-> | Hin]; [by vm_compute in Hid|].
  apply elem_of_cons in Hin as [-> | Hin]; [by vm_compute in Hup|].
  by apply elem_of_nil in Hin.
Qed.

(** The witness of [fetched_sorted]: Alice deletes the sample task; the
    collection she held was sorted and the one she gets is. *)
Lemma fetched_sorted_witness :
  let st := Sample.signed_in (Platform.to_todo <$> [Sample.taxes; Sample.milk]) in
  Pg.fetched_desc Platform.timestamptz_out (State.todos st)
  /\ Pg.fetched_desc Platform.timestamptz_out
       (State.todos
          (Run.state
             (Sample.run (handle Platform.Date_other (DeleteTodo (TodoRow.id Sample.milk)) st)
                st Sample.db_alice))).
Proof.
  intros st.
  assert (H : Pg.fetched_desc Platform.timestamptz_out (State.todos st)).
  { exists [Sample.taxes; Sample.milk]. split; [|reflexivity].
    repeat constructor; unfold created_desc; simpl; lia. }
  split; [exact H|].
  apply (fetched_sorted Platform.timestamptz_out Platform.timestamptz_in
           Platform.clock Platform.gen_random_uuid Platform.Date_other st Sample.db_alice).
  exact H.
Defined.

(** The scenario of the specification: the collection is fetched newest
    first; removing the older task leaves the newer one; renaming that one
    keeps its id and its creation time and refreshes [updated_at]. *)
Example scenario :
  let st0 := Sample.signed_in [] in
  let r1 := Sample.run fetchTodos st0 Sample.db_alice in
  let r2 := Sample.run (deleteTodo (TodoRow.id Sample.milk)) (Run.state r1) (Run.store r1) in
  let taxes := Platform.to_todo Sample.taxes in
  let st3 := State.set_title "File taxes today" (Run.state (Sample.run (startEdit taxes) (Run.state r2) (Run.store r2))) in
  let r3 := Sample.run (handleSubmitTodo Platform.Date_other st3) st3 (Run.store r2) in
  (Todo.title <$> State.todos (Run.state r1)) = ["File taxes"; "Buy milk"]
  /\ (Todo.title <$> State.todos (Run.state r2)) = ["File taxes"]
  /\ ((fun t => (Todo.id t, Todo.title t, Todo.created_at t, Todo.updated_at t))
        <$> State.todos (Run.state r3))
     = [(TodoRow.id Sample.taxes, "File taxes today", Todo.created_at taxes,
         "2024-01-01T00:00:03+00:00")].
Proof. repeat split; vm_compute; reflexivity. Qed.

(** * Further properties of the component *)

(** ** What [trim] leaves *)

Lemma string_app_cons (c : ascii) (s t : string) :
  String c s +:+ t = String c (s +:+ t).
Proof. reflexivity. Qed.

Lemma string_app_empty_r (s : string) : s +:+ EmptyString = s.
Proof. induction s as [|c s IH]; [done|]. by rewrite string_app_cons, IH. Qed.

Lemma string_app_assoc (a b c : string) : (a +:+ b) +:+ c = a +:+ (b +:+ c).
Proof. induction a as [|x a IH]; [done|]. by rewrite !string_app_cons, IH. Qed.

Lemma rev_app_spec (s acc : string) :
  String.rev_app s acc = String.rev s +:+ acc.
Proof.
  unfold String.rev. revert acc.
  induction s as [|c s IH]; intros acc; simpl; [done|].
  rewrite IH, (IH (String c EmptyString)). by rewrite string_app_assoc.
Qed.

Lemma rev_app_app (s t acc : string) :
  String.rev_app (s +:+ t) acc = String.rev_app t (String.rev_app s acc).
Proof. revert acc. induction s as [|c s IH]; intros acc; simpl; [done|]. apply IH. Qed.

Lemma rev_rev (s : string) : String.rev (String.rev s) = s.
Proof.
  induction s as [|c s IH]; [done|].
  unfold String.rev at 2. simpl. rewrite rev_app_spec.
  unfold String.rev at 1. rewrite rev_app_app. simpl.
  fold (String.rev (String.rev s)). by rewrite IH.
Qed.

Lemma trimStart_idem (s : string) : JS.trimStart (JS.trimStart s) = JS.trimStart s.
Proof.
  induction s as [|c s IH]; [done|]. simpl.
  destruct (JS.is_white_space c) eqn:E; [done|]. simpl. by rewrite E.
Qed.

Lemma trimStart_snoc (x : string) (c : ascii) :
  JS.is_white_space c = false ->
  exists y, JS.trimStart (x +:+ String c EmptyString) = y +:+ String c EmptyString.
Proof.
  intros Hc. induction x as [|a x IH].
  - exists EmptyString. simpl. change (EmptyString +:+ String c EmptyString) with (String c EmptyString).
    simpl. by rewrite Hc.
  - rewrite string_app_cons. simpl.
    destruct (JS.is_white_space a); [done|]. by exists (String a x).
Qed.

(** What [trimEnd] leaves of a string that does not start with white
    space does not start with white space either. *)
Lemma trimStart_trimEnd (u : string) :
  JS.trimStart u = u -> JS.trimStart (JS.trimEnd u) = JS.trimEnd u.
Proof.
  intros Hu. unfold JS.trimEnd. destruct u as [|c r]; [done|].
  assert (Hc : JS.is_white_space c = false).
  { eapply trimStart_head. exact Hu. }
  unfold String.rev at 2 4. simpl. rewrite rev_app_spec.
  destruct (trimStart_snoc (String.rev r) c Hc) as [y ->].
  unfold String.rev. rewrite rev_app_app. simpl. by rewrite Hc.
Qed.

(** Trimming twice is trimming once. *)
Lemma trim_idem (s : string) : JS.trim (JS.trim s) = JS.trim s.
Proof.
  unfold JS.trim. rewrite (trimStart_trimEnd (JS.trimStart s) (trimStart_idem s)).
  unfold JS.trimEnd. by rewrite rev_rev, trimStart_idem.
Qed.

(** ** What the form sends *)

Section Form.
Variable Date_other : string -> option string.
Context {S : Type} (respond : S -> Request -> S * Response.t).

Lemma payload_of_normal (st : State.t) (session : Session.t) (due : option string) :
  JS.trim (Payload.title (payload_of st session due)) = Payload.title (payload_of st session due)
  /\ Payload.description (payload_of st session due) <> Some EmptyString
  /\ (forall d, Payload.description (payload_of st session due) = Some d -> JS.trim d = d)
  /\ Payload.user_id (payload_of st session due) = Session.id (Session.user session).
Proof.
  unfold payload_of. cbn [Payload.title Payload.description Payload.user_id].
  split; [apply trim_idem|]. split; [|split; [|done]].
  - destruct (JS.trim (State.description st)) eqn:E; [done|]. cbn. congruence.
  - intros d. destruct (JS.truthy (JS.trim (State.description st))); [|done].
    intros [= <-]. apply trim_idem.
Qed.

(** X1: Whatever the form holds, an insert or an update that
    [handleSubmitTodo] sends carries a title that is not empty and is its
    own trim, a description that is absent or a non-empty string that is
    its own trim (never the empty string), and the id of the session's
    user as owner. *)
Theorem submitted_payload_normal (st : State.t) (s : S) (req : Request)
    (resp : Response.t) (p : Payload.t) :
  (req, resp) ∈ Run.trace (run respond (handleSubmitTodo Date_other st) st s) ->
  form_payload req = Some p ->
  JS.truthy (Payload.title p) = true
  /\ JS.trim (Payload.title p) = Payload.title p
  /\ Payload.description p <> Some EmptyString
  /\ (forall d, Payload.description p = Some d -> JS.trim d = d)
  /\ exists session, State.session st = Some session
                     /\ Payload.user_id p = Session.id (Session.user session).
Proof.
  intros Hin Hp.
  destruct (State.session st) as [session|] eqn:Hs;
    [|rewrite handleSubmitTodo_no_session in Hin by done; by inv Hin].
  rewrite (run_handleSubmitTodo _ _ st session s Hs) in Hin.
  destruct (draft_due Date_other (State.dueDate st)) as [e|due]; [by inv Hin|].
  destruct (JS.truthy (JS.trim (State.title st))) eqn:Ht; [|by inv Hin].
  cbv zeta in Hin.
  assert (Hreq : req = submit_request st (payload_of st session due)).
  { destruct (Response.error (snd (respond s _))).
    - apply list_elem_of_singleton in Hin. congruence.
    - cbn [Run.trace] in Hin. rewrite run_fetchTodos in Hin. cbn [Run.trace] in Hin.
      apply elem_of_cons in Hin as [Hin|Hin]; [congruence|].
      apply list_elem_of_singleton in Hin. by inv Hin. }
  assert (p = payload_of st session due) as ->.
  { subst req. unfold submit_request in Hp.
    destruct (JS.truthy_opt (State.editingId st)); cbn in Hp; congruence. }
  destruct (payload_of_normal st session due) as (H1 & H2 & H3 & H4).
  split; [exact Ht|]. split; [exact H1|]. split; [exact H2|]. split; [exact H3|].
  by exists session.
Qed.

(** X2: When the due-date draft does not convert, [handleSubmitTodo] rejects
    with the exception of [toISOString]: it sends nothing and leaves the
    error cleared, with no validation message even if the title is blank,
    because the payload is built before the title is looked at. *)
Theorem invalid_due_date_throws (st : State.t) (session : Session.t) (s : S) (e : Exn) :
  State.session st = Some session ->
  draft_due Date_other (State.dueDate st) = inl e ->
  run respond (handleSubmitTodo Date_other st) st s
  = Run.mk (Rejected e) (State.set_error None st) s [].
Proof. intros Hs Hd. by rewrite (run_handleSubmitTodo _ _ st session s Hs), Hd. Qed.

(** X3: When the store accepts the mutation of a submission, the form is
    reset (title, description and due date empty, no longer editing) and
    exactly one fetch follows; this holds also when that fetch fails, in
    which case the collection stays as it was and the error is the
    fetch's. *)
Theorem submit_success_resets_form (st : State.t) (session : Session.t) (s : S)
    (due : option string) :
  State.session st = Some session ->
  JS.truthy (JS.trim (State.title st)) = true ->
  draft_due Date_other (State.dueDate st) = inr due ->
  let req := submit_request st (payload_of st session due) in
  Response.error (snd (respond s req)) = None ->
  let fetch := respond (fst (respond s req)) (SelectOrderByCreatedAt false) in
  let r := run respond (handleSubmitTodo Date_other st) st s in
  Run.trace r = [(req, snd (respond s req)); (SelectOrderByCreatedAt false, snd fetch)]
  /\ Run.outcome r = Done tt
  /\ State.title (Run.state r) = EmptyString
  /\ State.description (Run.state r) = EmptyString
  /\ State.dueDate (Run.state r) = EmptyString
  /\ State.editingId (Run.state r) = None
  /\ State.error (Run.state r) = Response.error (snd fetch)
  /\ State.todos (Run.state r) =
     match Response.error (snd fetch) with
     | Some _ => State.todos st
     | None => default [] (Response.data (snd fetch))
     end.
Proof.
  intros Hs Ht Hd req Hok fetch r. subst r.
  rewrite (run_handleSubmitTodo _ _ st session s Hs), Hd, Ht. cbv zeta.
  fold req. rewrite Hok, run_fetchTodos. cbv zeta. fold fetch.
  cbn [Run.trace Run.outcome Run.state].
  by destruct (Response.error (snd fetch)).
Qed.

(** X4: The requests of one event: at most one mutation, then at most one
    fetch, in that order.  Only a submission, a toggle and a delete send a
    mutation; editing the form, cancelling and choosing a filter send
    nothing. *)
Theorem requests_of_an_event (ev : Event) (st : State.t) (s : S) :
  let kinds := (fun x => is_select (fst x)) <$> Run.trace (run respond (handle Date_other ev st) st s) in
  kinds ∈ [[]; [true]; [false]; [false; true]]
  /\ (mutation ev = false -> kinds ∈ [[]; [true]])
  /\ (mutation ev = false -> auth_event ev = false -> kinds = []).
Proof.
  assert (Hfetch : forall st' s', (fun x => is_select (fst x)) <$>
            Run.trace (run respond fetchTodos st' s') = [true]).
  { intros st' s'. by rewrite run_fetchTodos. }
  assert (Hmut : forall req st' s', is_select req = false ->
            (fun x => is_select (fst x)) <$>
              Run.trace (run respond
                 (r ← await req;
                  match Response.error r with
                  | Some message => setError (Some message)
                  | None => fetchTodos
                  end) st' s') ∈ [[false]; [false; true]]).
  { intros req st' s' Hreq. rewrite run_after_mutation. cbv zeta.
    destruct (Response.error (snd (respond s' req)));
      rewrite ?run_fetchTodos; cbv zeta; cbn [Run.trace];
      rewrite !fmap_cons; cbn [fst]; rewrite Hreq; cbn; set_solver. }
  destruct ev; cbn [handle mutation auth_event]; cbv zeta.
  - (* getSession *)
    unfold onGetSession, afterRender, setSession, setLoading.
    rewrite !run_bind, !run_set. cbn [Run.outcome Run.state Run.store Run.trace app].
    rewrite !run_bind, !run_set. cbn [Run.outcome Run.state Run.store Run.trace app].
    destruct (Session.Object_is (State.session st) s0);
      [|destruct s0; cbn [sessionEffect]; rewrite ?Hfetch];
      (split; [set_solver|split; [set_solver|done]]).
  - unfold onAuthStateChange, afterRender, setSession.
    rewrite !run_bind, !run_set. cbn [Run.outcome Run.state Run.store Run.trace app].
    destruct (Session.Object_is (State.session st) s0);
      [|destruct s0; cbn [sessionEffect]; rewrite ?Hfetch];
      (split; [set_solver|split; [set_solver|done]]).
  - split; [|split; intros ?; discriminate].
    destruct (State.session st) as [session|] eqn:Hs;
      [|rewrite handleSubmitTodo_no_session by done; set_solver].
    rewrite (run_handleSubmitTodo _ _ st session s Hs).
    destruct (draft_due Date_other (State.dueDate st)); [set_solver|].
    destruct (JS.truthy (JS.trim (State.title st))); [|set_solver].
    cbv zeta.
    assert (Hreq : is_select (submit_request st (payload_of st session o)) = false).
    { unfold submit_request. by destruct (JS.truthy_opt _). }
    destruct (Response.error (snd (respond s _)));
      rewrite ?run_fetchTodos; cbv zeta; cbn [Run.trace];
      rewrite !fmap_cons; cbn [fst]; rewrite Hreq; cbn; set_solver.
  - split; [set_solver|split; [set_solver|done]].
  - split; [|split; intros ?; discriminate]. unfold toggleComplete.
    pose proof (Hmut (Update (PatchCompleted (negb (Todo.completed todo))) (Todo.id todo))
                  st s eq_refl) as H.
    apply elem_of_cons in H as [H|H]; [|apply list_elem_of_singleton in H];
      rewrite H; by apply (bool_decide_unpack _).
  - split; [|split; intros ?; discriminate]. unfold deleteTodo.
    pose proof (Hmut (Delete id) st s eq_refl) as H.
    apply elem_of_cons in H as [H|H]; [|apply list_elem_of_singleton in H];
      rewrite H; by apply (bool_decide_unpack _).
  - split; [set_solver|split; [set_solver|done]].
  - split; [set_solver|split; [set_solver|done]].
  - split; [set_solver|split; [set_solver|done]].
  - split; [set_solver|split; [set_solver|done]].
  - split; [set_solver|split; [set_solver|done]].
Qed.

End Form.

(** ** Editing and saving unchanged *)

Section EditSave.
Variable Date_other : string -> option string.
Context {S : Type} (respond : S -> Request -> S * Response.t).



(** X6: Opening a task with [startEdit] and saving it unchanged sends back
    its title and its description, provided they are in the form the
    component saves them in: a non-empty title that is its own trim, a
    description that is absent or non-empty and its own trim. *)
Theorem edit_save_keeps_text (todo : Todo.t) (st : State.t) (session : Session.t)
    (s s' : S) :
  State.session st = Some session ->
  JS.truthy (Todo.id todo) = true ->
  JS.truthy (Todo.title todo) = true ->
  JS.trim (Todo.title todo) = Todo.title todo ->
  (forall d, Todo.description todo = Some d -> JS.truthy d = true /\ JS.trim d = d) ->
  match Todo.due_date todo with
  | Some due => JS.is_date_only (JS.slice0 10 due) = true
  | None => True
  end ->
  let editing := Run.state (run respond (startEdit todo) st s) in
  exists payload rest,
    Run.trace (run respond (handleSubmitTodo Date_other editing) editing s') =
      (Update (PatchForm payload) (Todo.id todo),
       snd (respond s' (Update (PatchForm payload) (Todo.id todo)))) :: rest
    /\ Payload.title payload = Todo.title todo
    /\ Payload.description payload = Todo.description todo.
Proof.
  intros Hs Hid Ht Htrim Hdesc Hdue editing.
  assert (Hd : exists due, draft_due Date_other (State.dueDate editing) = inr due).
  { subst editing. cbn. destruct (Todo.due_date todo) as [due|]; [|by eexists].
    rewrite (slice0_truthy 10 due (is_date_only_truthy _ Hdue)).
    eexists. by apply draft_due_date_only. }
  destruct Hd as [due Hd].
  destruct (run_update Date_other respond editing session (Todo.id todo) due s')
    as [rest Hrest]; try done.
  { change (JS.truthy (JS.trim (Todo.title todo)) = true). by rewrite Htrim. }
  assert (Ed : State.description editing =
               match Todo.description todo with
               | Some d => if JS.truthy d then d else EmptyString
               | None => EmptyString
               end) by reflexivity.
  eexists _, rest. split; [exact Hrest|]. split; [exact Htrim|].
  unfold payload_of. cbn [Payload.description]. rewrite Ed.
  destruct (Todo.description todo) as [d|]; [|done].
  destruct (Hdesc d eq_refl) as [Hd1 Hd2]. by rewrite Hd1, Hd2, Hd1.
Qed.

End EditSave.

(** ** The filtered view, composed *)

Lemma filter_filter_same {A : Type} (p : A -> bool) (l : list A) :
  List.filter p (List.filter p l) = List.filter p l.
Proof.
  induction l as [|x l IH]; [done|]. simpl.
  destruct (p x) eqn:E; [|done]. simpl. by rewrite E, IH.
Qed.

Lemma filter_filter_neg {A : Type} (p q : A -> bool) (l : list A) :
  (forall x, p x = true -> q x = false) ->
  List.filter q (List.filter p l) = [].
Proof.
  intros H. induction l as [|x l IH]; [done|]. simpl.
  destruct (p x) eqn:E; [|done]. simpl. by rewrite (H x E).
Qed.

Lemma filter_split_perm {A : Type} (p : A -> bool) (l : list A) :
  List.filter (fun x => negb (p x)) l ++ List.filter p l ≡ₚ l.
Proof.
  induction l as [|x l IH]; [done|]. simpl.
  destruct (p x); simpl.
  - rewrite <- Permutation_middle. by constructor.
  - by constructor.
Qed.

(** X7: Filtering a view again with its own filter changes nothing, the
    completed todos of the active view and the active todos of the
    completed view are none, and the active view followed by the completed
    view is a rearrangement of the whole collection. *)
Theorem filteredTodos_compose (todos : list Todo.t) (f : Filter) :
  filteredTodos (filteredTodos todos f) f = filteredTodos todos f
  /\ filteredTodos (filteredTodos todos active) completed = []
  /\ filteredTodos (filteredTodos todos completed) active = []
  /\ filteredTodos todos active ++ filteredTodos todos completed ≡ₚ todos.
Proof.
  split; [destruct f; simpl; auto using filter_filter_same|].
  split; [|split].
  - apply filter_filter_neg. intros x. by destruct (Todo.completed x).
  - apply filter_filter_neg. intros x. by destruct (Todo.completed x).
  - apply (filter_split_perm Todo.completed).
Qed.

(** ** The login card *)

(** X8: Whatever the auth collaborator answers, [handleAuth] makes exactly one
    call, a sign-in in login mode and a sign-up otherwise, with the email
    and the password of the form; it ends with [authLoading] off and the
    rest of the form as it was, and the error is the message of the answer
    or, on success, cleared.  It changes nothing else of the state, the
    session and the collection included. *)
Theorem handleAuth_spec {U : Type} (respond : U -> AuthRequest -> U * option string)
    (form : Login.t) (st : State.t) (u : U) :
  let req :=
    match Login.authMode form with
    | Login.login => SignInWithPassword (Login.email form) (Login.password form)
    | Login.signup => SignUp (Login.email form) (Login.password form)
    end in
  let r := run_auth respond (handleAuth form) form st u in
  AuthRun.trace r = [(req, snd (respond u req))]
  /\ AuthRun.form r = Login.set_authLoading false form
  /\ AuthRun.state r = State.set_error (snd (respond u req)) st.
Proof.
  unfold handleAuth. destruct (Login.authMode form); cbn;
    by destruct (snd (respond u _)).
Qed.

(** [handleLogout] calls [signOut] and nothing else: whatever the answer,
    a failure included, it changes neither the form nor the state, so the
    collection is cleared only when the auth client reports the change. *)
Theorem handleLogout_spec {U : Type} (respond : U -> AuthRequest -> U * option string)
    (form : Login.t) (st : State.t) (u : U) :
  run_auth respond handleLogout form st u
  = AuthRun.mk form st (fst (respond u SignOut)) [(SignOut, snd (respond u SignOut))].
Proof. reflexivity. Qed.

(** ** No session, no tasks *)

Section Reachable.
Variable Date_other : string -> option string.
Context {S : Type} (respond : S -> Request -> S * Response.t).

(** What the user can do (all but the callbacks of the auth client)
    leaves the tracked session as it is. *)
Lemma user_event_keeps_session (ev : Event) (st : State.t) (s : S) :
  auth_event ev = false ->
  State.session (Run.state (run respond (handle Date_other ev st) st s)) = State.session st.
Proof.
  intros Hev. destruct ev; try discriminate Hev; cbn [handle]; try reflexivity.
  - destruct (State.session st) as [session|] eqn:Hs;
      [|by rewrite handleSubmitTodo_no_session].
    rewrite (run_handleSubmitTodo _ _ st session s Hs).
    destruct (draft_due Date_other (State.dueDate st)); [done|].
    destruct (JS.truthy (JS.trim (State.title st))); [|done].
    cbv zeta. destruct (Response.error (snd (respond s _))); [done|].
    rewrite run_fetchTodos. cbv zeta. cbn [Run.state].
    by destruct (Response.error (snd (respond _ (SelectOrderByCreatedAt false)))).
  - unfold toggleComplete. rewrite run_after_mutation. cbv zeta.
    destruct (Response.error (snd (respond s _))); [done|].
    rewrite run_fetchTodos. cbv zeta. cbn [Run.state].
    by destruct (Response.error (snd (respond _ (SelectOrderByCreatedAt false)))).
  - unfold deleteTodo. rewrite run_after_mutation. cbv zeta.
    destruct (Response.error (snd (respond s _))); [done|].
    rewrite run_fetchTodos. cbv zeta. cbn [Run.state].
    by destruct (Response.error (snd (respond _ (SelectOrderByCreatedAt false)))).
Qed.

Lemma auth_event_without_session (ev : Event) (st : State.t) (s : S) :
  auth_event ev = true ->
  (State.session st = None -> State.todos st = []) ->
  State.session (Run.state (run respond (handle Date_other ev st) st s)) = None ->
  State.todos (Run.state (run respond (handle Date_other ev st) st s)) = [].
Proof.
  intros Hev Hinv. destruct ev as [new|new| | | | | | | | |]; try discriminate Hev;
    cbn [handle].
  - unfold onGetSession, afterRender, setSession, setLoading.
    rewrite !run_bind, !run_set. cbn [Run.outcome Run.state Run.store Run.trace app].
    rewrite !run_bind, !run_set. cbn [Run.outcome Run.state Run.store Run.trace app].
    destruct new as [session|].
    + destruct (Session.Object_is (State.session st) (Some session)); [done|].
      cbn [sessionEffect]. rewrite run_fetchTodos. cbv zeta. cbn [Run.state].
      by destruct (Response.error (snd (respond _ (SelectOrderByCreatedAt false)))).
    + destruct (State.session st) eqn:Hs; cbn [Session.Object_is]; [done|].
      intros _. by apply Hinv.
  - unfold onAuthStateChange, afterRender, setSession.
    rewrite !run_bind, !run_set. cbn [Run.outcome Run.state Run.store Run.trace app].
    destruct new as [session|].
    + destruct (Session.Object_is (State.session st) (Some session)); [done|].
      cbn [sessionEffect]. rewrite run_fetchTodos. cbv zeta. cbn [Run.state].
      by destruct (Response.error (snd (respond _ (SelectOrderByCreatedAt false)))).
    + destruct (State.session st) eqn:Hs; cbn [Session.Object_is]; [done|].
      intros _. by apply Hinv.
Qed.

(** X9: In every state the component reaches from its mount through the
    events its view offers, whatever the store answers and however the
    store changes meanwhile, the collection is empty while there is no
    session. *)
Theorem no_session_no_todos (st : State.t) (s : S) :
  reachable Date_other respond st s ->
  State.session st = None ->
  State.todos st = [].
Proof.
  induction 1 as [s|st s ev Hreach IH Hoff|st s s' Hreach IH]; [done| |done].
  destruct (auth_event ev) eqn:Hev.
  - by apply auth_event_without_session.
  - rewrite user_event_keeps_session by done. intros Hs.
    destruct ev; try discriminate Hev; cbn in Hoff; rewrite Hs in Hoff;
      by rewrite andb_false_r in Hoff.
Qed.

End Reachable.

(** ** The table under the policies *)

Section Policies.
Variable timestamptz_out : Z -> string.
Variable timestamptz_in : string -> option Z.
Variable clock : nat -> Z.
Variable gen_random_uuid : nat -> string.
Variable Date_other : string -> option string.

Local Abbreviation respond :=
  (Pg.respond timestamptz_out timestamptz_in clock gen_random_uuid).
Local Abbreviation to_todo := (Pg.to_todo timestamptz_out).

(** What an update makes of one row. *)
Local Abbreviation updated db f id :=
  (fun r : TodoRow.t =>
     if Pg.policy db r && String.eqb (TodoRow.id r) id
     then Pg.set_updated_at clock db (f r) else r).

Lemma decode_id (p : Patch) (f : TodoRow.t -> TodoRow.t) (r : TodoRow.t) :
  Pg.decode timestamptz_in p = inr f -> TodoRow.id (f r) = TodoRow.id r.
Proof.
  destruct p as [form|c]; simpl.
  - destruct (Pg.read_due_date timestamptz_in (Payload.due_date form)); [done|].
    by intros [= <-].
  - by intros [= <-].
Qed.

Lemma update_rows_ok (db : Pg.t) (f : TodoRow.t -> TodoRow.t) (id : string)
    (rs rs' : list TodoRow.t) :
  Pg.update_rows clock db f id rs = inr rs' ->
  rs' = updated db f id <$> rs
  /\ forall r, r ∈ rs -> Pg.policy db (updated db f id r) = Pg.policy db r.
Proof.
  revert rs'. induction rs as [|r rs IH]; intros rs' H; simpl in H.
  - inv H. split; [done|]. intros r Hr. by inv Hr.
  - destruct (Pg.policy db r && String.eqb (TodoRow.id r) id) eqn:E.
    + destruct (Pg.policy db (Pg.set_updated_at clock db (f r))) eqn:Hnew; [|done].
      destruct (Pg.update_rows clock db f id rs) as [e|rest]; [done|].
      inv H. destruct (IH rest eq_refl) as [-> Hall].
      split; [by rewrite fmap_cons, E|].
      intros x Hx. apply elem_of_cons in Hx as [->|Hx]; [|by apply Hall].
      rewrite E, Hnew. by apply andb_true_iff in E as [-> _].
    + destruct (Pg.update_rows clock db f id rs) as [e|rest]; [done|].
      inv H. destruct (IH rest eq_refl) as [-> Hall].
      split; [by rewrite fmap_cons, E|].
      intros x Hx. apply elem_of_cons in Hx as [->|Hx]; [|by apply Hall].
      by rewrite E.
Qed.

Lemma update_rows_error (db : Pg.t) (f : TodoRow.t -> TodoRow.t) (id : string)
    (rs : list TodoRow.t) (e : string) :
  Pg.update_rows clock db f id rs = inl e -> e = Pg.rls_violation.
Proof.
  induction rs as [|r rs IH]; simpl; [done|].
  destruct (Pg.policy db r && String.eqb (TodoRow.id r) id).
  - destruct (Pg.policy db (Pg.set_updated_at clock db (f r))); [|by intros [= <-]].
    destruct (Pg.update_rows clock db f id rs); [|done]. intros [= <-]. by apply IH.
  - destruct (Pg.update_rows clock db f id rs); [|done]. intros [= <-]. by apply IH.
Qed.

Lemma update_rows_none (db : Pg.t) (f : TodoRow.t -> TodoRow.t) (id : string) (rs : list TodoRow.t) :
  (forall r, r ∈ rs -> Pg.policy db r = true -> TodoRow.id r <> id) ->
  Pg.update_rows clock db f id rs = inr rs.
Proof.
  induction rs as [|r rs IH]; intros H; simpl; [done|].
  destruct (Pg.policy db r && String.eqb (TodoRow.id r) id) eqn:E.
  - apply andb_true_iff in E as [Hp Hid]. apply String.eqb_eq in Hid.
    exfalso. apply (H r); [constructor|done|done].
  - rewrite IH; [done|]. intros x Hx. apply H. by constructor.
Qed.

Lemma update_rows_refused (db : Pg.t) (f : TodoRow.t -> TodoRow.t) (id : string)
    (rs : list TodoRow.t) (r : TodoRow.t) :
  r ∈ rs -> Pg.policy db r = true -> TodoRow.id r = id ->
  (forall x, Pg.policy db (Pg.set_updated_at clock db (f x)) = false) ->
  Pg.update_rows clock db f id rs = inl Pg.rls_violation.
Proof.
  intros Hr Hp Hid Hnew. induction rs as [|x rs IH]; [by inv Hr|]. simpl.
  destruct (Pg.policy db x && String.eqb (TodoRow.id x) id) eqn:E.
  - by rewrite Hnew.
  - apply elem_of_cons in Hr as [->|Hr].
    + by rewrite Hp, Hid, String.eqb_refl in E.
    + by rewrite IH.
Qed.

Lemma delete_rows_none (db : Pg.t) (id : string) :
  (forall r, r ∈ Pg.rows db -> Pg.policy db r = true -> TodoRow.id r <> id) ->
  Pg.delete_rows db id = Pg.rows db.
Proof.
  unfold Pg.delete_rows. intros H. induction (Pg.rows db) as [|r rs IH]; [done|].
  simpl. destruct (Pg.policy db r && String.eqb (TodoRow.id r) id) eqn:E.
  - apply andb_true_iff in E as [Hp Hid]. apply String.eqb_eq in Hid.
    exfalso. apply (H r); [constructor|done|done].
  - simpl. rewrite IH; [done|]. intros x Hx. apply H. by constructor.
Qed.

Lemma foreign_filter_fmap (db : Pg.t) (g : TodoRow.t -> TodoRow.t) (rs : list TodoRow.t) :
  (forall r, r ∈ rs -> Pg.policy db (g r) = Pg.policy db r) ->
  (forall r, r ∈ rs -> Pg.policy db r = false -> g r = r) ->
  List.filter (fun r => negb (Pg.policy db r)) (g <$> rs)
  = List.filter (fun r => negb (Pg.policy db r)) rs.
Proof.
  induction rs as [|r rs IH]; intros H1 H2; [done|].
  rewrite fmap_cons. simpl. rewrite H1 by constructor.
  rewrite IH by (intros; (apply H1 || apply H2); by try constructor).
  destruct (Pg.policy db r) eqn:E; [done|]. simpl.
  by rewrite H2 by (done || constructor).
Qed.

(** X10: The policies isolate the callers: whatever request a caller makes,
    the rows that other users own stay in the table exactly as they were,
    and what a select returns to a caller is owned by that caller (nothing
    to an anonymous one). *)
Theorem rows_of_others_untouched (db : Pg.t) (req : Request) :
  List.filter (fun r => negb (Pg.policy db r)) (Pg.rows (fst (respond db req)))
  = List.filter (fun r => negb (Pg.policy db r)) (Pg.rows db)
  /\ forall ascending r,
       r ∈ Pg.select db ascending -> Pg.uid db = Some (TodoRow.user_id r).
Proof.
  split.
  - destruct req as [asc|p|p id|id]; cbn [Pg.respond].
    + done.
    + destruct (Pg.insert_row timestamptz_in clock gen_random_uuid db p) as [e|new] eqn:E;
        [done|].
      cbn [fst Pg.next Pg.rows]. rewrite List.filter_app. simpl.
      unfold Pg.insert_row in E.
      destruct (Pg.read_due_date timestamptz_in (Payload.due_date p)); [done|].
      destruct (negb (Pg.policy db _)) eqn:Hp; [done|].
      destruct (bool_decide _); [done|]. inv E. rewrite Hp. simpl.
      by rewrite app_nil_r.
    + destruct (Pg.decode timestamptz_in p) as [e|f]; [done|].
      destruct (Pg.update_rows clock db f id (Pg.rows db)) as [e|rs] eqn:E; [done|].
      apply update_rows_ok in E as [-> Hall]. cbn [fst Pg.next Pg.rows].
      apply foreign_filter_fmap; [done|].
      intros r _ Hp. by rewrite Hp.
    + cbn [fst Pg.next Pg.rows]. unfold Pg.delete_rows.
      induction (Pg.rows db) as [|r rs IH]; [done|]. simpl.
      destruct (Pg.policy db r) eqn:Hp; simpl.
      * destruct (String.eqb (TodoRow.id r) id); simpl; [done|]. by rewrite Hp.
      * by rewrite Hp, IH.
  - intros asc r Hr. apply elem_of_select in Hr as [_ Hp].
    unfold Pg.policy in Hp. destruct (Pg.uid db) as [u|]; [|done].
    apply String.eqb_eq in Hp. by subst.
Qed.

(** X11: No request breaks the primary key: if the ids of the table are
    pairwise different before a request, they are after it. *)
Theorem primary_key_kept (db : Pg.t) (req : Request) :
  Pg.wf db -> Pg.wf (fst (respond db req)).
Proof.
  unfold Pg.wf. intros Hwf. destruct req as [asc|p|p id|id]; cbn [Pg.respond].
  - done.
  - destruct (Pg.insert_row timestamptz_in clock gen_random_uuid db p) as [e|new] eqn:E;
      [done|].
    cbn [fst Pg.next Pg.rows]. rewrite fmap_app. apply NoDup_app.
    split; [done|]. split; [|apply NoDup_singleton].
    unfold Pg.insert_row in E.
    destruct (Pg.read_due_date timestamptz_in (Payload.due_date p)); [done|].
    destruct (negb (Pg.policy db _)); [done|].
    destruct (bool_decide _) eqn:Hdec; [done|]. inv E.
    apply bool_decide_eq_false in Hdec.
    intros x Hx Hx'. apply list_elem_of_singleton in Hx'. by subst.
  - destruct (Pg.decode timestamptz_in p) as [e|f] eqn:Hf; [done|].
    destruct (Pg.update_rows clock db f id (Pg.rows db)) as [e|rs] eqn:E; [done|].
    apply update_rows_ok in E as [-> _]. cbn [fst Pg.next Pg.rows].
    rewrite <- list_fmap_compose.
    erewrite list_fmap_ext; [exact Hwf|].
    intros i r _. simpl. destruct (_ && _); [|done].
    apply (decode_id p f r Hf).
  - cbn [fst Pg.next Pg.rows]. eapply sublist_NoDup; [exact Hwf|].
    apply fmap_sublist, filter_sublist.
Qed.

Lemma select_next (db : Pg.t) (rs : list TodoRow.t) (ascending : bool) (r : TodoRow.t) :
  r ∈ Pg.select (Pg.next db rs) ascending <-> r ∈ rs /\ Pg.policy db r = true.
Proof. by rewrite elem_of_select. Qed.

(** X12: A toggle or a delete aimed at a task that the caller does not own, or
    that is gone, is accepted without a word: the store reports no error,
    the component shows none, the table stays as it was and the fetch that
    follows returns what the caller owns. *)
Theorem not_owned_is_silent (todo : Todo.t) (st : State.t) (db : Pg.t) :
  (forall r, r ∈ Pg.rows db -> Pg.policy db r = true -> TodoRow.id r <> Todo.id todo) ->
  let toggle := run respond (toggleComplete todo) st db in
  let delete := run respond (deleteTodo (Todo.id todo)) st db in
  State.error (Run.state toggle) = None
  /\ Pg.rows (Run.store toggle) = Pg.rows db
  /\ State.todos (Run.state toggle) = to_todo <$> Pg.select db false
  /\ State.error (Run.state delete) = None
  /\ Pg.rows (Run.store delete) = Pg.rows db
  /\ State.todos (Run.state delete) = to_todo <$> Pg.select db false.
Proof.
  intros H toggle delete. subst toggle delete.
  unfold toggleComplete, deleteTodo. rewrite !run_after_mutation. cbv zeta.
  cbn [Pg.respond Pg.decode]. rewrite update_rows_none by done.
  rewrite delete_rows_none by done.
  cbn [snd fst Response.error Response.ok].
  rewrite !(run_fetchTodos_pg timestamptz_out timestamptz_in clock gen_random_uuid).
  done.
Qed.

(** X13: An edit cannot give a task away: when the session's user is not the
    identity that the requests carry, saving an edit of a task that this
    identity owns is refused by the update policy's check; the message
    becomes the error and neither the table nor the collection
    changes. *)
Theorem owner_cannot_change (st : State.t) (session : Session.t) (id : string)
    (due : option string) (z : option Z) (db : Pg.t) (r : TodoRow.t) :
  State.session st = Some session ->
  State.editingId st = Some id ->
  JS.truthy id = true ->
  JS.truthy (JS.trim (State.title st)) = true ->
  draft_due Date_other (State.dueDate st) = inr due ->
  Pg.read_due_date timestamptz_in due = inr z ->
  r ∈ Pg.rows db -> Pg.policy db r = true -> TodoRow.id r = id ->
  Pg.uid db <> Some (Session.id (Session.user session)) ->
  let res := run respond (handleSubmitTodo Date_other st) st db in
  Run.state res = State.set_error (Some Pg.rls_violation) st
  /\ Pg.rows (Run.store res) = Pg.rows db.
Proof.
  intros Hs He Hid Ht Hd Hz Hr Hp Hrid Hu res. subst res.
  rewrite (run_handleSubmitTodo _ _ st session db Hs), Hd, Ht. cbv zeta.
  unfold submit_request. rewrite He. cbn [JS.truthy_opt default]. rewrite Hid.
  cbn [Pg.respond Pg.decode payload_of Payload.due_date]. rewrite Hz.
  erewrite update_rows_refused; [done|exact Hr|exact Hp|exact Hrid|].
  intros x. unfold Pg.policy, Pg.set_updated_at. cbn.
  destruct (Pg.uid db) as [u|]; [|done].
  apply String.eqb_neq. congruence.
Qed.

(** X14: Creating a task and fetching: when the session's user is the identity
    of the requests, the title is not blank, the due date converts and the
    drawn id is new, the fetched collection gains exactly one task, with
    the drawn id, the trimmed title, [completed] false, the session's user
    as owner and the time of the insert as creation and update time; no
    other task has that id, and every task that a fetch returned before is
    still returned. *)
Theorem create_then_fetch (st : State.t) (session : Session.t) (due : option string)
    (z : option Z) (db : Pg.t) :
  Pg.wf db ->
  State.session st = Some session ->
  Pg.uid db = Some (Session.id (Session.user session)) ->
  JS.truthy_opt (State.editingId st) = false ->
  JS.truthy (JS.trim (State.title st)) = true ->
  draft_due Date_other (State.dueDate st) = inr due ->
  Pg.read_due_date timestamptz_in due = inr z ->
  gen_random_uuid (Pg.stmt db) ∉ TodoRow.id <$> Pg.rows db ->
  let payload := payload_of st session due in
  let new :=
    TodoRow.mk (gen_random_uuid (Pg.stmt db)) (Session.id (Session.user session))
      (JS.trim (State.title st)) (Payload.description payload) false z
      (Pg.now clock db) (Pg.now clock db) in
  let fetched := State.todos (Run.state (run respond (handleSubmitTodo Date_other st) st db)) in
  to_todo new ∈ fetched
  /\ (forall t, t ∈ fetched -> Todo.id t = TodoRow.id new -> t = to_todo new)
  /\ (forall r, r ∈ Pg.select db false -> to_todo r ∈ fetched)
  /\ List.length fetched = Datatypes.S (List.length (Pg.select db false)).
Proof.
  intros Hwf Hs Hu He Ht Hd Hz Hfresh payload new fetched.
  assert (Hpnew : Pg.policy db new = true).
  { unfold Pg.policy. cbn. by rewrite Hu, String.eqb_refl. }
  assert (Hins : Pg.insert_row timestamptz_in clock gen_random_uuid db payload = inr new).
  { unfold Pg.insert_row. change (Payload.due_date payload) with due. rewrite Hz.
    change (TodoRow.mk (gen_random_uuid (Pg.stmt db)) (Payload.user_id payload)
              (Payload.title payload) (Payload.description payload) false z
              (Pg.now clock db) (Pg.now clock db)) with new.
    rewrite Hpnew. cbn [negb].
    change (TodoRow.id new) with (gen_random_uuid (Pg.stmt db)).
    by rewrite bool_decide_eq_false_2. }
  assert (Hf : fetched = to_todo <$> Pg.select (Pg.next db (Pg.rows db ++ [new])) false).
  { subst fetched.
    rewrite (run_handleSubmitTodo _ _ st session db Hs), Hd, Ht. cbv zeta.
    unfold submit_request. rewrite He. fold payload.
    cbn [Pg.respond]. rewrite Hins. cbn [snd fst Response.error Response.ok].
    by rewrite (run_fetchTodos_pg timestamptz_out timestamptz_in clock gen_random_uuid). }
  rewrite Hf. split; [|split; [|split]].
  - apply list_elem_of_fmap_2, select_next. split; [|done].
    apply elem_of_app. right. constructor.
  - intros t Hin Hid. apply list_elem_of_fmap in Hin as (x & -> & Hx).
    apply select_next in Hx as [Hx _]. f_equal.
    apply elem_of_app in Hx as [Hx|Hx]; [|by apply list_elem_of_singleton in Hx].
    exfalso. apply Hfresh. cbn in Hid. rewrite <- Hid. by apply list_elem_of_fmap_2.
  - intros r Hr. apply list_elem_of_fmap_2, select_next.
    apply elem_of_select in Hr as [Hr Hp]. split; [|done].
    apply elem_of_app. by left.
  - rewrite length_fmap. unfold Pg.select.
    rewrite !merge_sort_Permutation. cbn [Pg.next Pg.rows].
    rewrite List.filter_app. rewrite length_app. simpl.
    replace (Pg.policy (Pg.next db (Pg.rows db ++ [new])) new) with true by done.
    change (Pg.policy (Pg.next db (Pg.rows db ++ [new]))) with (Pg.policy db).
    simpl. lia.
Qed.

(** X15: Deleting and fetching: no task with the deleted id is returned, and
    every other task that a fetch returned before is still returned. *)
Theorem delete_then_fetch (id : string) (st : State.t) (db : Pg.t) :
  let res := run respond (deleteTodo id) st db in
  State.error (Run.state res) = None
  /\ (forall t, t ∈ State.todos (Run.state res) -> Todo.id t <> id)
  /\ (forall r, r ∈ Pg.select db false -> TodoRow.id r <> id ->
        to_todo r ∈ State.todos (Run.state res)).
Proof.
  intros res. subst res. unfold deleteTodo. rewrite run_after_mutation. cbv zeta.
  cbn [Pg.respond snd fst Response.error Response.ok].
  rewrite (run_fetchTodos_pg timestamptz_out timestamptz_in clock gen_random_uuid).
  cbn [Run.state State.todos State.error State.set_todos State.set_error].
  split; [done|]. split.
  - intros t Hin Hid. apply list_elem_of_fmap in Hin as (x & -> & Hx).
    apply select_next in Hx as [Hx Hp]. unfold Pg.delete_rows in Hx.
    apply list_elem_of_In, filter_In in Hx as [_ Hx].
    cbn in Hid. by rewrite Hp, Hid, String.eqb_refl in Hx.
  - intros r Hr Hid. apply list_elem_of_fmap_2, select_next.
    apply elem_of_select in Hr as [Hr Hp]. split; [|done].
    unfold Pg.delete_rows. apply list_elem_of_In, filter_In. split.
    + by apply list_elem_of_In.
    + rewrite Hp. simpl. apply negb_true_iff. by apply String.eqb_neq.
Qed.

(** X16: A toggle writes the negation of the flag in the snapshot it was given,
    not of the stored flag: whatever [completed] the stored row has, the
    task comes back with [completed] opposite to the snapshot's, so the
    same click repeated on the same render does not flip it back.  It is
    the only task with that id, and every other task comes back as it
    was. *)
Theorem toggle_from_snapshot (todo : Todo.t) (r : TodoRow.t) (st : State.t) (db : Pg.t) :
  Pg.wf db ->
  r ∈ Pg.rows db -> Pg.policy db r = true -> TodoRow.id r = Todo.id todo ->
  let fetched := State.todos (Run.state (run respond (toggleComplete todo) st db)) in
  (exists t, t ∈ fetched
             /\ Todo.id t = Todo.id todo
             /\ Todo.completed t = negb (Todo.completed todo)
             /\ forall t', t' ∈ fetched -> Todo.id t' = Todo.id todo -> t' = t)
  /\ forall r', r' ∈ Pg.select db false -> TodoRow.id r' <> Todo.id todo ->
       to_todo r' ∈ fetched.
Proof.
  intros Hwf Hr Hp Hid fetched. subst fetched.
  rewrite (run_toggleComplete_pg timestamptz_out timestamptz_in clock gen_random_uuid).
  set (c := negb (Todo.completed todo)). set (id := Todo.id todo).
  assert (Hnew : Pg.toggled clock db c id r
                 = Pg.set_updated_at clock db (TodoRow.set_completed c r)).
  { unfold Pg.toggled. by rewrite Hp, Hid, String.eqb_refl. }
  split.
  - exists (to_todo (Pg.toggled clock db c id r)). split; [|split; [|split]].
    + apply list_elem_of_fmap_2, select_next. split.
      * by apply list_elem_of_fmap_2.
      * by rewrite Hnew.
    + by rewrite Hnew.
    + by rewrite Hnew.
    + intros t' Ht' Hid'. apply list_elem_of_fmap in Ht' as (x & -> & Hx).
      apply select_next in Hx as [Hx _].
      apply list_elem_of_fmap in Hx as (y & -> & Hy).
      f_equal. f_equal. apply (NoDup_fmap_eq TodoRow.id (Pg.rows db)); try done.
      cbn in Hid'. rewrite (toggled_id clock) in Hid'. subst id. congruence.
  - intros r' Hr' Hne. apply elem_of_select in Hr' as [Hr' Hp'].
    apply list_elem_of_fmap_2, select_next. split; [|done].
    replace r' with (Pg.toggled clock db c id r') at 1.
    + by apply list_elem_of_fmap_2.
    + unfold Pg.toggled. apply String.eqb_neq in Hne. rewrite Hne.
      by rewrite andb_false_r.
Qed.

End Policies.

(** ** Witnesses *)

(** The witness of [submitted_payload_normal]: a title and a description
    typed with blanks around them. *)
Lemma submitted_payload_normal_witness :
  let st := State.set_description "  " (State.set_title " Call mum " (Sample.signed_in [])) in
  let p := Payload.mk "Call mum" None None (Session.id (Session.user Sample.alice)) in
  (Insert p, Response.ok None)
    ∈ Run.trace (Sample.run (handleSubmitTodo Platform.Date_other st) st Sample.db_alice)
  /\ JS.trim (Payload.title p) = Payload.title p.
Proof.
  intros st p.
  assert (H : (Insert p, Response.ok None)
                ∈ Run.trace (Sample.run (handleSubmitTodo Platform.Date_other st) st
                               Sample.db_alice)).
  { vm_compute. constructor. }
  split; [exact H|].
  destruct (submitted_payload_normal Platform.Date_other Platform.respond st
              Sample.db_alice (Insert p) (Response.ok None) p H eq_refl)
    as (_ & Htrim & _).
  exact Htrim.
Defined.

(** The witness of [invalid_due_date_throws]: a draft that is no date,
    with a blank title. *)
Lemma invalid_due_date_throws_witness :
  let st := State.set_dueDate "tomorrow" (Sample.signed_in []) in
  Sample.run (handleSubmitTodo Platform.Date_other st) st Sample.db_alice
  = Run.mk (Rejected (RangeError "Invalid time value")) (State.set_error None st)
      Sample.db_alice [].
Proof.
  intros st.
  apply (invalid_due_date_throws Platform.Date_other Platform.respond st Sample.alice
           Sample.db_alice); reflexivity.
Defined.

(** The witness of [submit_success_resets_form]: Alice adds a task due on
    2024-06-01. *)
Lemma submit_success_resets_form_witness :
  let st := State.set_dueDate "2024-06-01" (State.set_title "Call mum" (Sample.signed_in [])) in
  let r := Sample.run (handleSubmitTodo Platform.Date_other st) st Sample.db_alice in
  State.title (Run.state r) = EmptyString /\ State.editingId (Run.state r) = None.
Proof.
  intros st r.
  destruct (submit_success_resets_form Platform.Date_other Platform.respond st
              Sample.alice Sample.db_alice (Some "2024-06-01T00:00:00.000Z")
              eq_refl eq_refl eq_refl eq_refl)
    as (_ & _ & Ht & _ & _ & He & _).
  split; [exact Ht|exact He].
Defined.

(** The witness of [requests_of_an_event]: choosing a filter. *)
Lemma requests_of_an_event_witness :
  Run.trace (Sample.run (handle Platform.Date_other (ClickFilter active) State.init)
               State.init Sample.db_alice) = [].
Proof.
  destruct (requests_of_an_event Platform.Date_other Platform.respond (ClickFilter active)
              State.init Sample.db_alice) as (_ & _ & H).
  apply fmap_nil_inv with (f := fun x : Request * Response.t => is_select (fst x)).
  apply H; reflexivity.
Defined.


(** The witness of [edit_save_keeps_text]: the sample task with a
    description. *)
Lemma edit_save_keeps_text_witness :
  let todo := Platform.to_todo Sample.taxes in
  let st := Sample.signed_in [todo] in
  let editing := Run.state (Sample.run (startEdit todo) st Sample.db_alice) in
  exists payload rest,
    Run.trace (Sample.run (handleSubmitTodo Platform.Date_other editing) editing
                 Sample.db_alice) =
      (Update (PatchForm payload) (Todo.id todo),
       snd (Platform.respond Sample.db_alice (Update (PatchForm payload) (Todo.id todo))))
      :: rest
    /\ Payload.title payload = "File taxes"
    /\ Payload.description payload = Some "before April".
Proof.
  intros todo st editing.
  apply (edit_save_keeps_text Platform.Date_other Platform.respond todo st Sample.alice
           Sample.db_alice Sample.db_alice);
    first [reflexivity | exact I | intros d [= <-]; split; reflexivity].
Defined.

(** The witness of [no_session_no_todos]: Alice logs in, her tasks are
    fetched, and she logs out. *)
Lemma no_session_no_todos_witness :
  let r1 := Sample.run (handle Platform.Date_other (AuthStateChange (Some Sample.alice))
                          State.init) State.init Sample.db_alice in
  let r2 := Sample.run (handle Platform.Date_other (AuthStateChange None) (Run.state r1))
              (Run.state r1) (Run.store r1) in
  List.length (State.todos (Run.state r1)) = 2
  /\ State.todos (Run.state r2) = [].
Proof.
  intros r1 r2. split; [reflexivity|].
  apply (no_session_no_todos Platform.Date_other Platform.respond (Run.state r2)
           (Run.store r2)); [|reflexivity].
  apply reachable_event; [|reflexivity].
  apply reachable_event; [|reflexivity].
  apply reachable_mount.
Defined.

(** The witness of [rows_of_others_untouched]: Bob asks to delete a task
    of Alice. *)
Lemma rows_of_others_untouched_witness :
  let db := Sample.db (Some (Session.id (Session.user Sample.bob))) in
  Pg.rows (fst (Platform.respond db (Delete (TodoRow.id Sample.milk))))
  = [Sample.milk; Sample.taxes].
Proof.
  intros db.
  destruct (rows_of_others_untouched Platform.timestamptz_out Platform.timestamptz_in
              Platform.clock Platform.gen_random_uuid db (Delete (TodoRow.id Sample.milk)))
    as [H _].
  exact H.
Defined.

(** The witness of [primary_key_kept]: an insert into the sample table. *)
Lemma primary_key_kept_witness :
  Pg.wf (fst (Platform.respond Sample.db_alice
                (Insert (Payload.mk "Call mum" None None
                           (Session.id (Session.user Sample.alice)))))).
Proof.
  apply (primary_key_kept Platform.timestamptz_out Platform.timestamptz_in
           Platform.clock Platform.gen_random_uuid).
  unfold Pg.wf. apply (bool_decide_unpack _). by vm_compute.
Defined.

(** The witness of [not_owned_is_silent]: Bob ticks a task of Alice that
    his view still shows. *)
Lemma not_owned_is_silent_witness :
  let db := Sample.db (Some (Session.id (Session.user Sample.bob))) in
  let todo := Platform.to_todo Sample.milk in
  let st := State.set_session (Some Sample.bob) (Sample.signed_in [todo]) in
  State.error (Run.state (Sample.run (toggleComplete todo) st db)) = None
  /\ Pg.rows (Run.store (Sample.run (toggleComplete todo) st db)) = Pg.rows db.
Proof.
  intros db todo st.
  destruct (not_owned_is_silent Platform.timestamptz_out Platform.timestamptz_in
              Platform.clock Platform.gen_random_uuid todo st db) as (H1 & H2 & _).
  - intros r Hr Hp.
    apply elem_of_cons in Hr as [->|Hr]; [by vm_compute in Hp|].
    apply list_elem_of_singleton in Hr as ->. by vm_compute in Hp.
  - split; [exact H1|exact H2].
Defined.

(** The witness of [owner_cannot_change]: the component still holds
    Bob's session while the requests carry Alice's identity. *)
Lemma owner_cannot_change_witness :
  let st := State.mk (Some Sample.bob) false [] None "Buy oat milk" EmptyString EmptyString
              (Some (TodoRow.id Sample.milk)) all in
  let res := Sample.run (handleSubmitTodo Platform.Date_other st) st Sample.db_alice in
  Run.state res = State.set_error (Some Pg.rls_violation) st
  /\ Pg.rows (Run.store res) = Pg.rows Sample.db_alice.
Proof.
  intros st res.
  apply (owner_cannot_change Platform.timestamptz_out Platform.timestamptz_in
           Platform.clock Platform.gen_random_uuid Platform.Date_other st Sample.bob
           (TodoRow.id Sample.milk) None None Sample.db_alice Sample.milk);
    try reflexivity.
  - change (Sample.milk ∈ [Sample.milk; Sample.taxes]). constructor.
  - discriminate.
Defined.

(** The witness of [create_then_fetch]: Alice adds a task. *)
Lemma create_then_fetch_witness :
  let st := State.set_title " Call mum " (Sample.signed_in []) in
  let fetched :=
    State.todos (Run.state (Sample.run (handleSubmitTodo Platform.Date_other st) st
                              Sample.db_alice)) in
  (Todo.title <$> fetched) = ["Call mum"; "File taxes"; "Buy milk"]
  /\ List.length fetched
     = Datatypes.S (List.length (Pg.select Sample.db_alice false)).
Proof.
  intros st fetched. split; [reflexivity|].
  apply (create_then_fetch Platform.timestamptz_out Platform.timestamptz_in
           Platform.clock Platform.gen_random_uuid Platform.Date_other st Sample.alice
           None None Sample.db_alice); try reflexivity.
  - unfold Pg.wf. apply (bool_decide_unpack _). by vm_compute.
  - apply (bool_decide_unpack _). by vm_compute.
Defined.

(** The witness of [delete_then_fetch]: Alice deletes the older task. *)
Lemma delete_then_fetch_witness :
  let res := Sample.run (deleteTodo (TodoRow.id Sample.milk)) (Sample.signed_in [])
               Sample.db_alice in
  Platform.to_todo Sample.taxes ∈ State.todos (Run.state res).
Proof.
  intros res.
  destruct (delete_then_fetch Platform.timestamptz_out Platform.timestamptz_in
              Platform.clock Platform.gen_random_uuid (TodoRow.id Sample.milk)
              (Sample.signed_in []) Sample.db_alice) as (_ & _ & H).
  apply H.
  - apply (elem_of_select Sample.db_alice false Sample.taxes). split.
    + change (Sample.taxes ∈ [Sample.milk; Sample.taxes]). by repeat constructor.
    + reflexivity.
  - discriminate.
Defined.

(** The witness of [toggle_from_snapshot]: the view still shows the task
    as completed while the stored task is not; ticking it writes
    [completed = false]. *)
Lemma toggle_from_snapshot_witness :
  let stale := Platform.to_todo (TodoRow.set_completed true Sample.milk) in
  let fetched :=
    State.todos (Run.state (Sample.run (toggleComplete stale) (Sample.signed_in [stale])
                              Sample.db_alice)) in
  TodoRow.completed Sample.milk = false
  /\ exists t, t ∈ fetched
               /\ Todo.id t = Todo.id stale
               /\ Todo.completed t = false
               /\ forall t', t' ∈ fetched -> Todo.id t' = Todo.id stale -> t' = t.
Proof.
  intros stale fetched. split; [reflexivity|].
  apply (toggle_from_snapshot Platform.timestamptz_out Platform.timestamptz_in
           Platform.clock Platform.gen_random_uuid stale Sample.milk
           (Sample.signed_in [stale]) Sample.db_alice); try reflexivity.
  - unfold Pg.wf. apply (bool_decide_unpack _). by vm_compute.
  - change (Sample.milk ∈ [Sample.milk; Sample.taxes]). constructor.
Defined.
